(** * JDL validation without application descriptors

    A shallow embedding of [jdl/validators/jdl-without-application-validator.ts]
    (generator-jhipster): the single-context orchestrator that runs the shape
    validators over a JDL object and applies the cross-reference rules.

    Thrown errors and [logger.warn] calls are the two effects of the code; they
    are modelled by a small monad whose computations return the warnings they
    logged, in order, together with either the thrown message or a value. *)

From Stdlib Require Import String Ascii List Bool Arith Lia.
Import ListNotations.
Local Open Scope list_scope.
Local Open Scope string_scope.

(** ** JavaScript strings *)

(** [String.prototype.toLowerCase], on the ASCII letters. The only use in the
    validator compares the result with ['user'] and ['authority']; no
    non-ASCII character lowercases to a letter of these two words, so the
    comparison is the same on UTF-8 encoded names. *)
Definition lowerChar (c : ascii) : ascii :=
  let n := nat_of_ascii c in
  if ((65 <=? n)%nat && (n <=? 90)%nat)%bool then ascii_of_nat (n + 32) else c.

Fixpoint toLowerCase (s : string) : string :=
  match s with
  | EmptyString => EmptyString
  | String c r => String (lowerChar c) (toLowerCase r)
  end.

(** [Array.prototype.join] on an array of strings. *)
Fixpoint join (sep : string) (l : list string) : string :=
  match l with
  | [] => EmptyString
  | [x] => x
  | x :: r => x ++ sep ++ join sep r
  end.

(** ** The JDL object model, as far as the validator reads it *)

Module JDLValidation.
Record t := mk { name : string; value : option string }.
End JDLValidation.

Module JDLField.
Record t := mk {
  name : string;
  type : string;
  validations : list JDLValidation.t   (* order of [forEachValidation] *)
}.
End JDLField.

Module JDLEntity.
(** [fields] is the object [jdlEntity.fields]: its keys in the order of
    [Object.keys], each with the field stored under it. *)
Record t := mk {
  name : string;
  tableName : string;
  fields : list (string * JDLField.t)
}.
End JDLEntity.

Module JDLRelationship.
Record t := mk {
  from : string;
  to : string;
  type : string;
  injectedFieldInFrom : option string;
  injectedFieldInTo : option string
}.
End JDLRelationship.

Module JDLEnum.
Record t := mk { name : string; values : list string }.
End JDLEnum.

Module JDLDeployment.
Record t := mk { deploymentType : string; properties : list (string * string) }.
End JDLDeployment.

Module JDLOption.
(** [getType()] answers ['UNARY'] or ['BINARY']. *)
Inductive kind := UNARY | BINARY.
Record t := mk {
  getType : kind;
  name : string;
  value : option string;
  entityNames : list string;
  excludedNames : list string
}.
End JDLOption.

Module JDLObject.
Record t := mk {
  entities : list JDLEntity.t;            (* order of [forEachEntity] *)
  relationships : list JDLRelationship.t; (* order of [forEachRelationship] *)
  enums : list JDLEnum.t;                 (* order of [forEachEnum] *)
  deployments : list JDLDeployment.t;     (* order of [forEachDeployment] *)
  options : list JDLOption.t              (* order of [getOptions()] *)
}.
End JDLObject.

(** Modelled from the spec: the Model container ([models/jdl-object.js] is not
    among the sources). It "provides existence queries, iteration, and counts
    used by the orchestrators": entities and enumerations are found by their
    name, options by their name, and the counts are the number of nodes. *)
Definition getEntityQuantity (o : JDLObject.t) : nat := length (JDLObject.entities o).
Definition getRelationshipQuantity (o : JDLObject.t) : nat := length (JDLObject.relationships o).
Definition getEnumQuantity (o : JDLObject.t) : nat := length (JDLObject.enums o).
Definition getDeploymentQuantity (o : JDLObject.t) : nat := length (JDLObject.deployments o).
Definition getOptionQuantity (o : JDLObject.t) : nat := length (JDLObject.options o).

Definition getEntity (o : JDLObject.t) (entityName : string) : option JDLEntity.t :=
  find (fun e => String.eqb (JDLEntity.name e) entityName) (JDLObject.entities o).

Definition hasEnum (o : JDLObject.t) (enumName : string) : bool :=
  existsb (fun e => String.eqb (JDLEnum.name e) enumName) (JDLObject.enums o).

Definition getOptionsForName (o : JDLObject.t) (optionName : string) : list JDLOption.t :=
  filter (fun opt => String.eqb (JDLOption.name opt) optionName) (JDLObject.options o).

(** ** The settings object *)

(** [applicationSettings: any = {}]: every property may be missing. *)
Record Settings := mkSettings {
  baseName : option string;
  applicationType : option string;
  databaseType : option string;
  skippedUserManagement : option bool;
  blueprints : option (list string)
}.

Definition noSettings : Settings := mkSettings None None None None None.

(** ** JavaScript values of [skippedUserManagement]

    [a || b] is [a] when [a] is truthy and [b] otherwise, so the value handed
    to the relationship checks is a boolean, an option object or undefined. *)
Inductive JsFlag :=
| FlagUndefined
| FlagBool (b : bool)
| FlagOption (o : JDLOption.t).

Definition truthy (v : JsFlag) : bool :=
  match v with
  | FlagUndefined => false
  | FlagBool b => b
  | FlagOption _ => true
  end.

(** Truthiness of a string-valued property that may be missing. *)
Definition truthyString (v : option string) : bool :=
  match v with
  | None => false
  | Some EmptyString => false
  | Some _ => true
  end.

(** ** Effects: warnings and thrown errors *)

Definition M (A : Type) : Type := (list string * (string + A))%type.

Definition ret {A} (a : A) : M A := ([], inr a).
Definition throw {A} (msg : string) : M A := ([], inl msg).
Definition warn (msg : string) : M unit := ([msg], inr tt).

Definition bind {A B} (m : M A) (k : A -> M B) : M B :=
  match m with
  | (w, inl e) => (w, inl e)
  | (w, inr a) => let (w', r) := k a in ((w ++ w')%list, r)
  end.

Declare Scope validator_scope.
Delimit Scope validator_scope with validator.
Notation "m1 ;; m2" := (bind m1 (fun _ => m2))
  (at level 61, right associativity) : validator_scope.
Local Open Scope validator_scope.

(** [if (c) { body }] *)
Definition when (c : bool) (body : M unit) : M unit := if c then body else ret tt.

(** A shape validator either throws its message or returns. *)
Definition validate (r : option string) : M unit :=
  match r with
  | Some msg => throw msg
  | None => ret tt
  end.

(** [forEach] over an array: the callback runs on each element in order and
    the first throw leaves the loop. *)
Fixpoint forEach {A} (f : A -> M unit) (l : list A) : M unit :=
  match l with
  | [] => ret tt
  | x :: r => f x ;; forEach f r
  end.

(** The warnings a computation logged and how it ended. *)
Definition warnings {A} (m : M A) : list string := fst m.
Definition outcome {A} (m : M A) : string + A := snd m.
Definition succeeds (m : M unit) : Prop := outcome m = inr tt.
Definition failsWith (m : M unit) (msg : string) : Prop := outcome m = inl msg.

(** ** The collaborators the validator imports

    The constant tables of [jdl/jhipster] and the shape validators are not
    part of the validator's own source; the validator is embedded over any
    choice of them. A shape validator answers [Some msg] when it throws [msg]
    on the node it is given and [None] when it returns. *)
Record Collaborators := mkCollaborators {
  (* databaseTypes.SQL, databaseTypes.CASSANDRA, applicationTypes.GATEWAY *)
  SQL : string;
  CASSANDRA : string;
  GATEWAY : string;
  (* applicationOptions.OptionNames.SKIP_USER_MANAGEMENT, binaryOptions.Options.PAGINATION *)
  SKIP_USER_MANAGEMENT : string;
  PAGINATION : string;
  (* reservedKeywords *)
  isReservedClassName : string -> bool;
  isReservedFieldName : string -> bool;
  isReservedTableName : string -> option string -> bool;
  isReservedPaginationWords : string -> bool;
  (* fieldTypes *)
  getIsType : option string -> string -> bool;
  hasValidation : string -> string -> bool -> bool;
  (* the shape validators whose rules the validator's source does not show *)
  FieldValidator : JDLField.t -> option string;
  ValidationValidator : JDLValidation.t -> option string;
  RelationshipValidator : JDLRelationship.t -> JsFlag -> option string;
  EnumValidator : JDLEnum.t -> option string;
  DeploymentValidator : JDLDeployment.t -> option string;
  UnaryOptionValidator : JDLOption.t -> option string;
  BinaryOptionValidator : JDLOption.t -> option string
}.

(** Modelled from the spec: [EntityValidator.validate] ([entity-validator.js]
    is not among the sources). An entity's name "must not collide with a
    reserved class name", the collision is "fatal if matched", and validation
    then "fails with: The name 'Continue' is a reserved keyword and can not be
    used as an entity class name." The attributes the validator requires are
    always present in a [JDLEntity.t]. *)
Definition EntityValidator (E : Collaborators) (jdlEntity : JDLEntity.t) : option string :=
  if isReservedClassName E (JDLEntity.name jdlEntity)
  then Some ("The name '" ++ JDLEntity.name jdlEntity
             ++ "' is a reserved keyword and can not be used as an entity class name.")
  else None.

(** [v === c] for a property that may be missing and a string constant. *)
Definition strictEq (v : option string) (c : string) : bool :=
  match v with
  | Some x => String.eqb x c
  | None => false
  end.

(** [applicationSettings.blueprints && applicationSettings.blueprints.length !== 0] *)
Definition blueprintsUsed (applicationSettings : Settings) : bool :=
  match blueprints applicationSettings with
  | Some (_ :: _) => true
  | _ => false
  end.

(** ** The functions of the module *)

Definition isUserManagementEntity (entityName : string) : bool :=
  String.eqb (toLowerCase entityName) "user"
  || String.eqb (toLowerCase entityName) "authority".

(** The array [absentEntities] once both endpoints have been looked at. *)
Definition absentEntities (jdlRelationship : JDLRelationship.t)
    (doesEntityExist : string -> bool) (skippedUserManagementOption : JsFlag) : list string :=
  let from := JDLRelationship.from jdlRelationship in
  let to := JDLRelationship.to jdlRelationship in
  ((if negb (doesEntityExist from) then [from] else [])
   ++ (if negb (doesEntityExist to)
          && (negb (isUserManagementEntity to) || truthy skippedUserManagementOption)
       then [to] else []))%list.

Definition checkForAbsentEntities (jdlRelationship : JDLRelationship.t)
    (doesEntityExist : string -> bool) (skippedUserManagementOption : JsFlag) : M unit :=
  let absent := absentEntities jdlRelationship doesEntityExist skippedUserManagementOption in
  when (negb (length absent =? 0)%nat)
    (throw ("In the relationship between " ++ JDLRelationship.from jdlRelationship
            ++ " and " ++ JDLRelationship.to jdlRelationship ++ ", "
            ++ join " and " absent ++ " "
            ++ (if (length absent =? 1)%nat then "is" else "are") ++ " not declared.")).

Section Validator.
Variable E : Collaborators.

Definition getTypeCheckingFunction (entityName : string) (applicationSettings : Settings)
    : string -> bool :=
  if strictEq (applicationType applicationSettings) (GATEWAY E)
  then fun _ => true
  else getIsType E (databaseType applicationSettings).

Definition checkForPaginationInAppWithCassandra (jdlOption : JDLOption.t)
    (applicationSettings : Settings) : M unit :=
  when (strictEq (databaseType applicationSettings) (CASSANDRA E)
        && String.eqb (JDLOption.name jdlOption) (PAGINATION E))
    (throw "Pagination isn't allowed when the application uses Cassandra.").

(** The functions declared inside [createValidator] close over its
    arguments. *)
Variable jdlObject : JDLObject.t.
Variable applicationSettings : Settings.

Definition checkForValidationErrors (jdlField : JDLField.t) (isAnEnum : bool) : M unit :=
  forEach (fun jdlValidation =>
    validate (ValidationValidator E jdlValidation) ;;
    when (negb (hasValidation E (JDLField.type jdlField)
                  (JDLValidation.name jdlValidation) isAnEnum))
      (throw ("The validation '" ++ JDLValidation.name jdlValidation
              ++ "' isn't supported for the type '" ++ JDLField.type jdlField ++ "'.")))
    (JDLField.validations jdlField).

(** The callback of [Object.keys(jdlFields).forEach] in [checkForFieldErrors]. *)
Definition checkField (entityName : string) (filtering : bool)
    (entry : string * JDLField.t) : M unit :=
  let (fieldName, jdlField) := entry in
  validate (FieldValidator E jdlField) ;;
  when (isReservedFieldName E (JDLField.name jdlField))
    (warn ("The name '" ++ JDLField.name jdlField
           ++ "' is a reserved keyword, so it will be prefixed with the value of 'jhiPrefix'.")) ;;
  when (filtering && isReservedPaginationWords E (JDLField.name jdlField))
    (throw ("Field name '" ++ fieldName ++ "' found in " ++ entityName
            ++ " is a reserved keyword, as it is used by Spring for pagination in the URL.")) ;;
  let typeCheckingFunction := getTypeCheckingFunction entityName applicationSettings in
  when (negb (hasEnum jdlObject (JDLField.type jdlField))
        && negb (typeCheckingFunction (JDLField.type jdlField)))
    (throw ("The type '" ++ JDLField.type jdlField ++ "' is an unknown field type for field '"
            ++ fieldName ++ "' of entity '" ++ entityName ++ "'.")) ;;
  let isAnEnum := hasEnum jdlObject (JDLField.type jdlField) in
  checkForValidationErrors jdlField isAnEnum.

Definition checkForFieldErrors (entityName : string)
    (jdlFields : list (string * JDLField.t)) : M unit :=
  let filtering := strictEq (databaseType applicationSettings) (SQL E) in
  forEach (checkField entityName filtering) jdlFields.

(** The callback of [jdlObject.forEachEntity] in [checkForEntityErrors]. *)
Definition checkEntity (jdlEntity : JDLEntity.t) : M unit :=
  validate (EntityValidator E jdlEntity) ;;
  when (isReservedTableName E (JDLEntity.tableName jdlEntity) (databaseType applicationSettings))
    (warn ("The table name '" ++ JDLEntity.tableName jdlEntity
           ++ "' is a reserved keyword, so it will be prefixed with the value of 'jhiPrefix'.")) ;;
  checkForFieldErrors (JDLEntity.name jdlEntity) (JDLEntity.fields jdlEntity).

Definition checkForEntityErrors : M unit :=
  if (getEntityQuantity jdlObject =? 0)%nat then ret tt
  else if negb (truthyString (databaseType applicationSettings))
  then throw "Database type is required to validate entities."
  else forEach checkEntity (JDLObject.entities jdlObject).

(** [applicationSettings.skippedUserManagement ||
     jdlObject.getOptionsForName(OptionNames.SKIP_USER_MANAGEMENT)[0]] *)
Definition skippedUserManagementValue : JsFlag :=
  match skippedUserManagement applicationSettings with
  | Some true => FlagBool true
  | _ =>
      match getOptionsForName jdlObject (SKIP_USER_MANAGEMENT E) with
      | [] => FlagUndefined
      | o :: _ => FlagOption o
      end
  end.

(** [entityName => !!jdlObject.getEntity(entityName)] *)
Definition doesEntityExist (entityName : string) : bool :=
  match getEntity jdlObject entityName with
  | Some _ => true
  | None => false
  end.

(** The callback of [jdlObject.forEachRelationship]. *)
Definition checkRelationship (skipped : JsFlag) (jdlRelationship : JDLRelationship.t) : M unit :=
  validate (RelationshipValidator E jdlRelationship skipped) ;;
  checkForAbsentEntities jdlRelationship doesEntityExist skipped.

Definition checkForRelationshipErrors : M unit :=
  if (getRelationshipQuantity jdlObject =? 0)%nat then ret tt
  else
    let skipped := skippedUserManagementValue in
    forEach (checkRelationship skipped) (JDLObject.relationships jdlObject).

Definition checkForEnumErrors : M unit :=
  if (getEnumQuantity jdlObject =? 0)%nat then ret tt
  else forEach (fun jdlEnum => validate (EnumValidator E jdlEnum)) (JDLObject.enums jdlObject).

Definition checkDeploymentsErrors : M unit :=
  if (getDeploymentQuantity jdlObject =? 0)%nat then ret tt
  else forEach (fun deployment => validate (DeploymentValidator E deployment))
         (JDLObject.deployments jdlObject).

(** The callback of [jdlObject.getOptions().forEach]. *)
Definition checkOption (option : JDLOption.t) : M unit :=
  match JDLOption.getType option with
  | JDLOption.UNARY => validate (UnaryOptionValidator E option)
  | JDLOption.BINARY => validate (BinaryOptionValidator E option)
  end ;;
  checkForPaginationInAppWithCassandra option applicationSettings.

Definition checkForOptionErrors : M unit :=
  if (getOptionQuantity jdlObject =? 0)%nat then ret tt
  else forEach checkOption (JDLObject.options jdlObject).

(** The five phases of the validator that does validate. *)
Definition checkAll : M unit :=
  checkForEntityErrors ;;
  checkForRelationshipErrors ;;
  checkForEnumErrors ;;
  checkDeploymentsErrors ;;
  checkForOptionErrors.
End Validator.

(** The object [createValidator] returns. *)
Record Validator := mkValidator { checkForErrors : M unit }.

(** [createValidator(jdlObject, applicationSettings, logger)]; a missing
    [jdlObject] is [None], and the result is the thrown message or the
    validator. *)
Definition createValidator (E : Collaborators) (jdlObject : option JDLObject.t)
    (applicationSettings : Settings) : string + Validator :=
  match jdlObject with
  | None => inl "A JDL object must be passed to check for business errors."
  | Some jdlObject =>
      if blueprintsUsed applicationSettings
      then inr (mkValidator
                  (warn "Blueprints are being used, the JDL validation phase is skipped."))
      else inr (mkValidator (checkAll E jdlObject applicationSettings))
  end.

(** [createValidator(jdlObject, applicationSettings, logger).checkForErrors()]
    on a model that is there. *)
Definition validation (E : Collaborators) (jdlObject : JDLObject.t)
    (applicationSettings : Settings) : M unit :=
  match createValidator E (Some jdlObject) applicationSettings with
  | inl msg => throw msg
  | inr validator => checkForErrors validator
  end.

(** What a logger that has already received [log] holds after the call. *)
Definition logAfter (log : list string) (m : M unit) : list string := (log ++ warnings m)%list.

(** ** A small instance of the collaborators *)

Module Sample.
Definition oneOf (l : list string) (s : string) : bool :=
  existsb (String.eqb s) l.

Definition commonDBTypes : list string :=
  ["String"; "Integer"; "Long"; "BigDecimal"; "Float"; "Double"; "Boolean";
   "LocalDate"; "ZonedDateTime"; "Instant"; "Duration"; "UUID"].

(** Modelled from the spec: an instance of the tables and shape validators
    ([jdl/jhipster] and the shape validators are not among the sources),
    holding the values the spec and the validator's tests name: the
    database types ['sql'] and ['cassandra'], the application type
    ['gateway'], the options ['skipUserManagement'] and ['pagination'],
    the reserved tokens [continue] and [catch], the pagination words, the
    common field types with the validation ['min'] kept for numbers, and
    shape validators that accept every node. *)
Definition collaborators : Collaborators := {|
  SQL := "sql";
  CASSANDRA := "cassandra";
  GATEWAY := "gateway";
  SKIP_USER_MANAGEMENT := "skipUserManagement";
  PAGINATION := "pagination";
  isReservedClassName := fun n => oneOf ["continue"; "class"; "catch"] (toLowerCase n);
  isReservedFieldName := fun n => oneOf ["continue"; "class"; "catch"] (toLowerCase n);
  isReservedTableName := fun n _ => oneOf ["continue"; "select"] (toLowerCase n);
  isReservedPaginationWords := oneOf ["page"; "size"; "sort"];
  getIsType := fun db => match db with
                         | Some _ => oneOf commonDBTypes
                         | None => fun _ => false
                         end;
  hasValidation := fun ty v isAnEnum =>
    oneOf ["required"; "unique"] v
    || (negb isAnEnum && oneOf ["Integer"; "Long"] ty && oneOf ["min"; "max"] v)
    || (negb isAnEnum && String.eqb ty "String" && oneOf ["minlength"; "maxlength"; "pattern"] v);
  FieldValidator := fun _ => None;
  ValidationValidator := fun _ => None;
  RelationshipValidator := fun _ _ => None;
  EnumValidator := fun _ => None;
  DeploymentValidator := fun _ => None;
  UnaryOptionValidator := fun _ => None;
  BinaryOptionValidator := fun _ => None
|}.

Definition entity (name : string) (fields : list JDLField.t) : JDLEntity.t :=
  JDLEntity.mk name (toLowerCase name) (map (fun f => (JDLField.name f, f)) fields).

Definition oneToOne (from to : string) : JDLRelationship.t :=
  JDLRelationship.mk from to "OneToOne" (Some "other") None.

Definition sqlMonolith : Settings :=
  mkSettings None (Some "monolith") (Some "sql") None None.

Definition skipping (s : Settings) : Settings :=
  mkSettings (baseName s) (applicationType s) (databaseType s) (Some true) (blueprints s).

Definition noModel : JDLObject.t := JDLObject.mk [] [] [] [] [].

(** [Source] is declared and has a relationship to the undeclared [User]. *)
Definition sourceToUser : JDLObject.t :=
  JDLObject.mk [entity "Source" []] [oneToOne "Source" "User"] [] [] [].

(** [Destination] is declared and the relationship starts at the
    undeclared [User]. *)
Definition userToDestination : JDLObject.t :=
  JDLObject.mk [entity "Destination" []] [oneToOne "User" "Destination"] [] [] [].
End Sample.


(** ** The vocabulary of the statements *)

Definition blueprintsWarning : string :=
  "Blueprints are being used, the JDL validation phase is skipped.".

(** The validation has come to the entity [e]: the phases run, the database
    type is there, and the entities before [e] have passed. *)
Definition entityReached (E : Collaborators) (m : JDLObject.t) (s : Settings)
    (pre : list JDLEntity.t) (e : JDLEntity.t) (post : list JDLEntity.t) : Prop :=
  blueprintsUsed s = false
  /\ truthyString (databaseType s) = true
  /\ JDLObject.entities m = (pre ++ e :: post)%list
  /\ Forall (fun e' => succeeds (checkEntity E m s e')) pre.

(** The validation of the entity [e] has come to the field stored under [k]:
    the entity's own shape is accepted and the fields before it have passed. *)
Definition fieldReached (E : Collaborators) (m : JDLObject.t) (s : Settings)
    (e : JDLEntity.t) (fpre : list (string * JDLField.t)) (k : string) (f : JDLField.t)
    (fpost : list (string * JDLField.t)) : Prop :=
  EntityValidator E e = None
  /\ JDLEntity.fields e = (fpre ++ (k, f) :: fpost)%list
  /\ Forall (fun entry => succeeds (checkField E m s (JDLEntity.name e)
                                      (strictEq (databaseType s) (SQL E)) entry)) fpre.

Definition reservedFieldWarning (f : JDLField.t) : string :=
  "The name '" ++ JDLField.name f
  ++ "' is a reserved keyword, so it will be prefixed with the value of 'jhiPrefix'.".

(** The type-checking predicate, in the words of the specification: every
    type name on a gateway, the type universe of the database type
    otherwise. *)
Definition typeUniverseAccepts (E : Collaborators) (s : Settings) (ty : string) : bool :=
  strictEq (applicationType s) (GATEWAY E) || getIsType E (databaseType s) ty.

(** The validation has come to the relationship [r]: the phases run, the
    entities have passed, the relationships before [r] have passed, and the
    shape of [r] is accepted. *)
Definition relationshipReached (E : Collaborators) (m : JDLObject.t) (s : Settings)
    (pre : list JDLRelationship.t) (r : JDLRelationship.t)
    (post : list JDLRelationship.t) : Prop :=
  blueprintsUsed s = false
  /\ succeeds (checkForEntityErrors E m s)
  /\ JDLObject.relationships m = (pre ++ r :: post)%list
  /\ Forall (fun r' => succeeds (checkRelationship E m (skippedUserManagementValue E m s) r')) pre
  /\ RelationshipValidator E r (skippedUserManagementValue E m s) = None.

(** Whether the check pushes the [to] endpoint: it is not declared, and it
    is no user-management entity or user management is skipped. *)
Definition toReported (doesEntityExist : string -> bool) (skipped : JsFlag)
    (r : JDLRelationship.t) : bool :=
  negb (doesEntityExist (JDLRelationship.to r))
  && (negb (isUserManagementEntity (JDLRelationship.to r)) || truthy skipped).

Definition paginationError : string :=
  "Pagination isn't allowed when the application uses Cassandra.".

(** The shape validator of the option's kind accepts it. *)
Definition optionShapeAccepted (E : Collaborators) (o : JDLOption.t) : Prop :=
  match JDLOption.getType o with
  | JDLOption.UNARY => UnaryOptionValidator E o = None
  | JDLOption.BINARY => BinaryOptionValidator E o = None
  end.

(** The validation has come to the options: the phases run and the four
    phases before the options have passed. *)
Definition optionsReached (E : Collaborators) (m : JDLObject.t) (s : Settings) : Prop :=
  blueprintsUsed s = false
  /\ succeeds (checkForEntityErrors E m s)
  /\ succeeds (checkForRelationshipErrors E m s)
  /\ succeeds (checkForEnumErrors E m)
  /\ succeeds (checkDeploymentsErrors E m).

(** The message of the first node of [l] that the check [v] rejects. *)
Fixpoint firstRejection {A} (v : A -> option string) (l : list A) : option string :=
  match l with
  | [] => None
  | x :: r =>
      match v x with
      | Some msg => Some msg
      | None => firstRejection v r
      end
  end.

(** What stops an option: its shape validator first, the Cassandra rule
    after it. *)
Definition optionError (E : Collaborators) (s : Settings) (o : JDLOption.t) : option string :=
  match (match JDLOption.getType o with
         | JDLOption.UNARY => UnaryOptionValidator E o
         | JDLOption.BINARY => BinaryOptionValidator E o
         end) with
  | Some msg => Some msg
  | None =>
      if strictEq (databaseType s) (CASSANDRA E)
         && String.eqb (JDLOption.name o) (PAGINATION E)
      then Some paginationError
      else None
  end.

(** What stops a validation of a field: its shape validator first, the
    support matrix after it. *)
Definition validationError (E : Collaborators) (f : JDLField.t) (isAnEnum : bool)
    (v : JDLValidation.t) : option string :=
  match ValidationValidator E v with
  | Some msg => Some msg
  | None =>
      if hasValidation E (JDLField.type f) (JDLValidation.name v) isAnEnum
      then None
      else Some ("The validation '" ++ JDLValidation.name v
                 ++ "' isn't supported for the type '" ++ JDLField.type f ++ "'.")
  end.

Definition reservedTableWarning (e : JDLEntity.t) : string :=
  "The table name '" ++ JDLEntity.tableName e
  ++ "' is a reserved keyword, so it will be prefixed with the value of 'jhiPrefix'.".

(** The collaborators [E] with another type universe, resp. another table of
    pagination words. *)
Definition withGetIsType (g : option string -> string -> bool) (E : Collaborators)
    : Collaborators :=
  mkCollaborators (SQL E) (CASSANDRA E) (GATEWAY E) (SKIP_USER_MANAGEMENT E) (PAGINATION E)
    (isReservedClassName E) (isReservedFieldName E) (isReservedTableName E)
    (isReservedPaginationWords E) g (hasValidation E)
    (FieldValidator E) (ValidationValidator E) (RelationshipValidator E) (EnumValidator E)
    (DeploymentValidator E) (UnaryOptionValidator E) (BinaryOptionValidator E).

Definition withPaginationWords (p : string -> bool) (E : Collaborators) : Collaborators :=
  mkCollaborators (SQL E) (CASSANDRA E) (GATEWAY E) (SKIP_USER_MANAGEMENT E) (PAGINATION E)
    (isReservedClassName E) (isReservedFieldName E) (isReservedTableName E)
    p (getIsType E) (hasValidation E)
    (FieldValidator E) (ValidationValidator E) (RelationshipValidator E) (EnumValidator E)
    (DeploymentValidator E) (UnaryOptionValidator E) (BinaryOptionValidator E).

(** ** Locating a generator

    [locateGenerator] of the generators' support code: the generator that is
    passed, else the one the environment holds for the namespace, else the
    name read off the namespace. *)

(** [s.split(sep)] for a separator of one character: the pieces of [s]
    between the occurrences of [sep]; never empty. *)
Fixpoint splitOn (sep : ascii) (s : string) : list string :=
  match s with
  | EmptyString => [EmptyString]
  | String c r =>
      if Ascii.eqb c sep then EmptyString :: splitOn sep r
      else match splitOn sep r with
           | [] => [String c EmptyString]
           | w :: ws => String c w :: ws
           end
  end.

(** [s.split(sep, limit)]: the first [limit] pieces. *)
Definition split (sep : ascii) (limit : nat) (s : string) : list string :=
  firstn limit (splitOn sep s).

(** [s] holds the character [c]. *)
Fixpoint occurs (c : ascii) (s : string) : bool :=
  match s with
  | EmptyString => false
  | String c' r => Ascii.eqb c' c || occurs c r
  end.

Section LocateGenerator.
(** The generators the environment holds. *)
Variable G : Type.

(** What [locateGenerator] returns: a generator, [undefined] (the
    [generator] property of what the environment returned is missing), or a
    name. *)
Inductive Located :=
| LocatedGenerator (g : G)
| LocatedUndefined
| LocatedName (name : string).

(** [generator] is [None] when it is falsy; [requireNamespace] answers [None]
    when the lookup, or reading [.generator] off its result, throws, and
    otherwise the [generator] property of the result. *)
Definition locateGenerator (generator : option G)
    (requireNamespace : string -> option (option G)) (namespace : string) : Located :=
  match generator with
  | Some g => LocatedGenerator g
  | None =>
      match requireNamespace namespace with
      | Some (Some g) => LocatedGenerator g
      | Some None => LocatedUndefined
      | None =>
          let split := split ":" 2 namespace in
          LocatedName (if (length split =? 1)%nat
                       then nth 0 split EmptyString
                       else nth 1 split EmptyString)
      end
  end.
End LocateGenerator.

Arguments LocatedGenerator {G} g.
Arguments LocatedUndefined {G}.
Arguments LocatedName {G} name.
Arguments locateGenerator {G} generator requireNamespace namespace.

(** ** Sound models

    What the validation asks of each node. *)

Definition validationSound (E : Collaborators) (m : JDLObject.t) (f : JDLField.t)
    (v : JDLValidation.t) : Prop :=
  ValidationValidator E v = None
  /\ hasValidation E (JDLField.type f) (JDLValidation.name v) (hasEnum m (JDLField.type f))
     = true.

Definition fieldSound (E : Collaborators) (m : JDLObject.t) (s : Settings)
    (f : JDLField.t) : Prop :=
  FieldValidator E f = None
  /\ strictEq (databaseType s) (SQL E) && isReservedPaginationWords E (JDLField.name f) = false
  /\ hasEnum m (JDLField.type f) || typeUniverseAccepts E s (JDLField.type f) = true
  /\ Forall (validationSound E m f) (JDLField.validations f).

Definition entitySound (E : Collaborators) (m : JDLObject.t) (s : Settings)
    (e : JDLEntity.t) : Prop :=
  isReservedClassName E (JDLEntity.name e) = false
  /\ Forall (fun entry => fieldSound E m s (snd entry)) (JDLEntity.fields e).

Definition relationshipSound (E : Collaborators) (m : JDLObject.t) (s : Settings)
    (r : JDLRelationship.t) : Prop :=
  RelationshipValidator E r (skippedUserManagementValue E m s) = None
  /\ doesEntityExist m (JDLRelationship.from r) = true
  /\ (doesEntityExist m (JDLRelationship.to r) = true
      \/ (isUserManagementEntity (JDLRelationship.to r) = true
          /\ truthy (skippedUserManagementValue E m s) = false)).

Definition optionSound (E : Collaborators) (s : Settings) (o : JDLOption.t) : Prop :=
  optionShapeAccepted E o
  /\ (databaseType s = Some (CASSANDRA E) -> JDLOption.name o <> PAGINATION E).

(** ** Laws of the effects *)

Section Effects.
Context {A B : Type}.

Lemma outcome_bind_ok (m : M A) (k : A -> M B) (a : A) :
  outcome m = inr a -> outcome (bind m k) = outcome (k a).
Proof.
  destruct m as [w [e | a']]; simpl; intros H; [discriminate |].
  injection H as ->. unfold bind. destruct (k a); reflexivity.
Qed.

Lemma outcome_bind_fail (m : M A) (k : A -> M B) (msg : string) :
  outcome m = inl msg -> outcome (bind m k) = inl msg.
Proof.
  destruct m as [w [e | a']]; simpl; intros H; [congruence | discriminate].
Qed.

Lemma warnings_bind_ok (m : M A) (k : A -> M B) (a : A) :
  outcome m = inr a -> warnings (bind m k) = (warnings m ++ warnings (k a))%list.
Proof.
  destruct m as [w [e | a']]; simpl; intros H; [discriminate |].
  injection H as ->. unfold bind. destruct (k a); reflexivity.
Qed.

Lemma warnings_bind_fail (m : M A) (k : A -> M B) (msg : string) :
  outcome m = inl msg -> warnings (bind m k) = warnings m.
Proof.
  destruct m as [w [e | a']]; simpl; intros H; [reflexivity | discriminate].
Qed.
End Effects.

Lemma bind_ret_l {B} (k : unit -> M B) : bind (ret tt) k = k tt.
Proof. unfold bind, ret. destruct (k tt); reflexivity. Qed.

Lemma bind_throw_l {A B} (msg : string) (k : A -> M B) : bind (throw msg) k = throw msg.
Proof. reflexivity. Qed.

Lemma validate_None : validate None = ret tt.
Proof. reflexivity. Qed.

Lemma when_false (body : M unit) : when false body = ret tt.
Proof. reflexivity. Qed.

Lemma when_true (body : M unit) : when true body = body.
Proof. reflexivity. Qed.

Lemma succeeds_bind (m1 m2 : M unit) :
  succeeds m1 -> succeeds m2 -> succeeds (m1 ;; m2).
Proof.
  unfold succeeds. intros H1 H2. rewrite (outcome_bind_ok _ _ tt H1). exact H2.
Qed.

Lemma failsWith_bind_later (m1 m2 : M unit) (msg : string) :
  succeeds m1 -> failsWith m2 msg -> failsWith (m1 ;; m2) msg.
Proof.
  unfold succeeds, failsWith. intros H1 H2. rewrite (outcome_bind_ok _ _ tt H1). exact H2.
Qed.

Lemma failsWith_bind_first (m1 m2 : M unit) (msg : string) :
  failsWith m1 msg -> failsWith (m1 ;; m2) msg.
Proof. unfold failsWith. apply outcome_bind_fail. Qed.

(** *** Loops *)

Section Loops.
Context {A : Type} (f : A -> M unit).

Lemma forEach_succeeds (l : list A) :
  Forall (fun x => succeeds (f x)) l -> succeeds (forEach f l).
Proof.
  induction 1 as [| x r Hx _ IH]; simpl.
  - reflexivity.
  - apply succeeds_bind; assumption.
Qed.

(** Once the elements before [x] have passed, the loop ends as the
    callback on [x] followed by the rest of the loop does. *)
Lemma outcome_forEach_reach (pre post : list A) (x : A) :
  Forall (fun y => succeeds (f y)) pre ->
  outcome (forEach f (pre ++ x :: post)) = outcome (f x ;; forEach f post).
Proof.
  induction 1 as [| y r Hy _ IH]; simpl.
  - reflexivity.
  - rewrite (outcome_bind_ok _ _ tt Hy). exact IH.
Qed.

Lemma forEach_fails_at (pre post : list A) (x : A) (msg : string) :
  Forall (fun y => succeeds (f y)) pre ->
  failsWith (f x) msg ->
  failsWith (forEach f (pre ++ x :: post)) msg.
Proof.
  intros Hpre Hx. unfold failsWith.
  rewrite (outcome_forEach_reach _ _ _ Hpre). apply outcome_bind_fail. exact Hx.
Qed.

Lemma forEach_silent (l : list A) :
  (forall x, warnings (f x) = []) -> warnings (forEach f l) = [].
Proof.
  intros Hf. induction l as [| x r IH]; simpl; [reflexivity |].
  destruct (outcome (f x)) as [e | []] eqn:Hx.
  - rewrite (warnings_bind_fail _ _ e Hx). apply Hf.
  - rewrite (warnings_bind_ok _ _ tt Hx), Hf, IH. reflexivity.
Qed.
End Loops.

(** ** The validator *)

Lemma validation_blueprints E m s :
  blueprintsUsed s = true -> validation E m s = warn blueprintsWarning.
Proof. unfold validation, createValidator. intros ->. reflexivity. Qed.

Lemma validation_phases E m s :
  blueprintsUsed s = false -> validation E m s = checkAll E m s.
Proof. unfold validation, createValidator. intros ->. reflexivity. Qed.

(** *** Phases over no node *)

Lemma checkForEntityErrors_none E m s :
  JDLObject.entities m = [] -> checkForEntityErrors E m s = ret tt.
Proof. unfold checkForEntityErrors, getEntityQuantity. intros ->. reflexivity. Qed.

Lemma checkForRelationshipErrors_none E m s :
  JDLObject.relationships m = [] -> checkForRelationshipErrors E m s = ret tt.
Proof. unfold checkForRelationshipErrors, getRelationshipQuantity. intros ->. reflexivity. Qed.

Lemma checkForEnumErrors_none E m :
  JDLObject.enums m = [] -> checkForEnumErrors E m = ret tt.
Proof. unfold checkForEnumErrors, getEnumQuantity. intros ->. reflexivity. Qed.

Lemma checkDeploymentsErrors_none E m :
  JDLObject.deployments m = [] -> checkDeploymentsErrors E m = ret tt.
Proof. unfold checkDeploymentsErrors, getDeploymentQuantity. intros ->. reflexivity. Qed.

Lemma checkForOptionErrors_none E m s :
  JDLObject.options m = [] -> checkForOptionErrors E m s = ret tt.
Proof. unfold checkForOptionErrors, getOptionQuantity. intros ->. reflexivity. Qed.

(** *** Phases over some nodes *)

Lemma length_middle_eqb {A} (pre post : list A) (x : A) :
  (length (pre ++ x :: post) =? 0)%nat = false.
Proof. apply Nat.eqb_neq. rewrite length_app. simpl. lia. Qed.

Lemma succeeds_when_warn (c : bool) (msg : string) : succeeds (when c (warn msg)).
Proof. destruct c; reflexivity. Qed.

Lemma entity_failure E m s pre e post msg :
  entityReached E m s pre e post ->
  failsWith (checkEntity E m s e) msg ->
  failsWith (validation E m s) msg.
Proof.
  intros (Hbp & Hdb & Hents & Hpre) He.
  rewrite (validation_phases _ _ _ Hbp). unfold checkAll.
  apply failsWith_bind_first.
  unfold checkForEntityErrors, getEntityQuantity.
  rewrite Hents, length_middle_eqb, Hdb. simpl negb. cbv iota.
  apply forEach_fails_at; assumption.
Qed.

Lemma field_failure E m s pre e post fpre k f fpost msg :
  entityReached E m s pre e post ->
  fieldReached E m s e fpre k f fpost ->
  failsWith (checkField E m s (JDLEntity.name e) (strictEq (databaseType s) (SQL E)) (k, f)) msg ->
  failsWith (validation E m s) msg.
Proof.
  intros Hent (Hshape & Hfields & Hfpre) Hf.
  apply (entity_failure _ _ _ _ _ _ _ Hent).
  unfold checkEntity. rewrite Hshape, validate_None, bind_ret_l.
  apply failsWith_bind_later; [apply succeeds_when_warn |].
  unfold checkForFieldErrors. rewrite Hfields.
  apply forEach_fails_at; assumption.
Qed.

(** The field check once the field's shape is accepted. *)
Lemma checkField_shape_ok E m s entityName filtering k f :
  FieldValidator E f = None ->
  checkField E m s entityName filtering (k, f) =
    (when (isReservedFieldName E (JDLField.name f))
       (warn ("The name '" ++ JDLField.name f
              ++ "' is a reserved keyword, so it will be prefixed with the value of 'jhiPrefix'.")) ;;
     when (filtering && isReservedPaginationWords E (JDLField.name f))
       (throw ("Field name '" ++ k ++ "' found in " ++ entityName
               ++ " is a reserved keyword, as it is used by Spring for pagination in the URL.")) ;;
     when (negb (hasEnum m (JDLField.type f))
           && negb (getTypeCheckingFunction E entityName s (JDLField.type f)))
       (throw ("The type '" ++ JDLField.type f ++ "' is an unknown field type for field '"
               ++ k ++ "' of entity '" ++ entityName ++ "'.")) ;;
     checkForValidationErrors E f (hasEnum m (JDLField.type f))).
Proof.
  intros Hshape. unfold checkField. rewrite Hshape, validate_None, bind_ret_l. reflexivity.
Qed.

Lemma checkForValidationErrors_silent E f isAnEnum :
  warnings (checkForValidationErrors E f isAnEnum) = [].
Proof.
  unfold checkForValidationErrors. apply forEach_silent. intros v.
  destruct (ValidationValidator E v); simpl; [reflexivity |].
  destruct (hasValidation E _ _ _); reflexivity.
Qed.

(** ** Blueprints *)

(** C7: when the settings carry a non-empty blueprints list, [checkForErrors()]
    on any model, with any collaborators and any logger, is the single call
    [logger.warn('Blueprints are being used, the JDL validation phase is
    skipped.')]: it succeeds, that warning is the only one logged, and nothing
    of the model is validated. *)
Theorem blueprints_replace_validation (E : Collaborators) (m : JDLObject.t) (s : Settings)
    (b : string) (bs : list string) (log : list string) :
  blueprints s = Some (b :: bs) ->
  createValidator E (Some m) s = inr (mkValidator (warn blueprintsWarning))
  /\ validation E m s = warn blueprintsWarning
  /\ succeeds (validation E m s)
  /\ warnings (validation E m s)
     = ["Blueprints are being used, the JDL validation phase is skipped."]
  /\ logAfter log (validation E m s)
     = (log ++ ["Blueprints are being used, the JDL validation phase is skipped."])%list.
Proof.
  intros Hb.
  assert (Hused : blueprintsUsed s = true) by (unfold blueprintsUsed; rewrite Hb; reflexivity).
  assert (Hv : validation E m s = warn blueprintsWarning) by (apply validation_blueprints, Hused).
  split.
  - unfold createValidator. rewrite Hused. reflexivity.
  - unfold logAfter. rewrite Hv. repeat split.
Qed.

Lemma blueprints_replace_validation_witness :
  let m := JDLObject.mk [Sample.entity "Continue" [JDLField.mk "page" "WeirdType" []]]
             [Sample.oneToOne "A" "B"] [] [] [] in
  let s := mkSettings None (Some "monolith") (Some "sql") None
             (Some ["generator-jhipster-nodejs"; "generator-jhipster-dotnetcore"]) in
  blueprints s = Some ["generator-jhipster-nodejs"; "generator-jhipster-dotnetcore"]
  /\ succeeds (validation Sample.collaborators m s)
  /\ logAfter ["earlier"] (validation Sample.collaborators m s)
     = ["earlier"; "Blueprints are being used, the JDL validation phase is skipped."].
Proof.
  intros m s. split; [reflexivity |].
  destruct (blueprints_replace_validation Sample.collaborators m s
              "generator-jhipster-nodejs" ["generator-jhipster-dotnetcore"] ["earlier"]
              eq_refl) as (_ & _ & Hok & _ & Hlog).
  split; [exact Hok | exact Hlog].
Defined.

(** ** A model without nodes *)

(** C8, as stated, fails on settings that carry blueprints: the model has no
    node at all and the call still logs the blueprints warning. *)
Lemma empty_model_logs_with_blueprints :
  JDLObject.entities Sample.noModel = []
  /\ JDLObject.relationships Sample.noModel = []
  /\ JDLObject.enums Sample.noModel = []
  /\ JDLObject.deployments Sample.noModel = []
  /\ JDLObject.options Sample.noModel = []
  /\ warnings (validation Sample.collaborators Sample.noModel
                 (mkSettings None None None None (Some ["generator-jhipster-nodejs"])))
     = ["Blueprints are being used, the JDL validation phase is skipped."].
Proof. repeat split. Qed.

(** C8, as the code has it: on a model with no entity, relationship, enumeration,
    deployment and option, [checkForErrors()] succeeds for every settings
    object, also one without a database type; it logs nothing unless the
    settings carry blueprints, in which case the blueprints warning is all it
    logs; and each of the five phases returns at once, so the check that asks
    for a database type does not run. *)
Theorem empty_model_passes (E : Collaborators) (m : JDLObject.t) (s : Settings) :
  JDLObject.entities m = [] ->
  JDLObject.relationships m = [] ->
  JDLObject.enums m = [] ->
  JDLObject.deployments m = [] ->
  JDLObject.options m = [] ->
  succeeds (validation E m s)
  /\ (blueprintsUsed s = false -> warnings (validation E m s) = [])
  /\ (blueprintsUsed s = true -> warnings (validation E m s) = [blueprintsWarning])
  /\ checkForEntityErrors E m s = ret tt
  /\ checkForRelationshipErrors E m s = ret tt
  /\ checkForEnumErrors E m = ret tt
  /\ checkDeploymentsErrors E m = ret tt
  /\ checkForOptionErrors E m s = ret tt.
Proof.
  intros Hent Hrel Henum Hdep Hopt.
  pose proof (checkForEntityErrors_none E m s Hent) as P1.
  pose proof (checkForRelationshipErrors_none E m s Hrel) as P2.
  pose proof (checkForEnumErrors_none E m Henum) as P3.
  pose proof (checkDeploymentsErrors_none E m Hdep) as P4.
  pose proof (checkForOptionErrors_none E m s Hopt) as P5.
  assert (Hall : checkAll E m s = ret tt).
  { unfold checkAll. rewrite P1, P2, P3, P4, P5. reflexivity. }
  repeat split; try assumption.
  - destruct (blueprintsUsed s) eqn:Hbp.
    + rewrite (validation_blueprints _ _ _ Hbp). reflexivity.
    + rewrite (validation_phases _ _ _ Hbp), Hall. reflexivity.
  - intros Hbp. rewrite (validation_phases _ _ _ Hbp), Hall. reflexivity.
  - intros Hbp. rewrite (validation_blueprints _ _ _ Hbp). reflexivity.
Qed.

Lemma empty_model_passes_witness :
  JDLObject.entities Sample.noModel = []
  /\ JDLObject.relationships Sample.noModel = []
  /\ JDLObject.enums Sample.noModel = []
  /\ JDLObject.deployments Sample.noModel = []
  /\ JDLObject.options Sample.noModel = []
  /\ succeeds (validation Sample.collaborators Sample.noModel noSettings)
  /\ warnings (validation Sample.collaborators Sample.noModel noSettings) = []
  /\ checkForEntityErrors Sample.collaborators Sample.noModel noSettings = ret tt.
Proof.
  destruct (empty_model_passes Sample.collaborators Sample.noModel noSettings
              eq_refl eq_refl eq_refl eq_refl eq_refl)
    as (Hok & Hquiet & _ & Hentities & _).
  exact (conj eq_refl (conj eq_refl (conj eq_refl (conj eq_refl (conj eq_refl
           (conj Hok (conj (Hquiet eq_refl) Hentities))))))).
Defined.

(** ** Entities *)

(** C2: when the validation comes to an entity whose name is a reserved
    class name, [checkForErrors()] fails with the message
    [The name '<name>' is a reserved keyword and can not be used as an entity
    class name.] *)
Theorem reserved_class_name_is_fatal (E : Collaborators) (m : JDLObject.t) (s : Settings)
    (pre : list JDLEntity.t) (e : JDLEntity.t) (post : list JDLEntity.t) :
  entityReached E m s pre e post ->
  isReservedClassName E (JDLEntity.name e) = true ->
  failsWith (validation E m s)
    ("The name '" ++ JDLEntity.name e
     ++ "' is a reserved keyword and can not be used as an entity class name.").
Proof.
  intros Hreach Hres. apply (entity_failure _ _ _ _ _ _ _ Hreach).
  unfold checkEntity, EntityValidator. rewrite Hres. reflexivity.
Qed.

Lemma reserved_class_name_is_fatal_witness :
  let valid := Sample.entity "Valid" [JDLField.mk "validField" "String" []] in
  let continue := Sample.entity "Continue" [] in
  let m := JDLObject.mk [valid; continue] [] [] [] [] in
  entityReached Sample.collaborators m Sample.sqlMonolith [valid] continue []
  /\ isReservedClassName Sample.collaborators (JDLEntity.name continue) = true
  /\ failsWith (validation Sample.collaborators m Sample.sqlMonolith)
       "The name 'Continue' is a reserved keyword and can not be used as an entity class name.".
Proof.
  intros valid continue m.
  assert (Hreach : entityReached Sample.collaborators m Sample.sqlMonolith [valid] continue []).
  { repeat split. repeat constructor. }
  split; [exact Hreach | split; [reflexivity |]].
  exact (reserved_class_name_is_fatal Sample.collaborators m Sample.sqlMonolith
           [valid] continue [] Hreach eq_refl).
Defined.

(** ** Fields *)

Lemma strictEq_same (c : string) : strictEq (Some c) c = true.
Proof. simpl. apply String.eqb_refl. Qed.

Lemma strictEq_other (v : option string) (c : string) : v <> Some c -> strictEq v c = false.
Proof.
  destruct v as [x |]; simpl; [| reflexivity].
  intros Hne. apply String.eqb_neq. congruence.
Qed.

(** A field whose shape is accepted logs the reserved-name warning and
    nothing else, however its check ends. *)
Lemma checkField_warnings E m s entityName filtering k f :
  FieldValidator E f = None ->
  warnings (checkField E m s entityName filtering (k, f))
  = if isReservedFieldName E (JDLField.name f) then [reservedFieldWarning f] else [].
Proof.
  intros Hshape. rewrite (checkField_shape_ok _ _ _ _ _ _ _ Hshape).
  pose proof (checkForValidationErrors_silent E f (hasEnum m (JDLField.type f))) as Hsilent.
  destruct (checkForValidationErrors E f (hasEnum m (JDLField.type f))) as [w r].
  simpl in Hsilent. subst w.
  destruct (isReservedFieldName E (JDLField.name f)),
           (filtering && isReservedPaginationWords E (JDLField.name f)),
           (negb (hasEnum m (JDLField.type f))
            && negb (getTypeCheckingFunction E entityName s (JDLField.type f)));
    reflexivity.
Qed.

(** A field that passes the pagination and the type check ends as the check
    of its validations does. *)
Lemma checkField_continues E m s entityName filtering k f :
  FieldValidator E f = None ->
  filtering && isReservedPaginationWords E (JDLField.name f) = false ->
  hasEnum m (JDLField.type f) || getTypeCheckingFunction E entityName s (JDLField.type f) = true ->
  outcome (checkField E m s entityName filtering (k, f))
  = outcome (checkForValidationErrors E f (hasEnum m (JDLField.type f))).
Proof.
  intros Hshape Hpag Hty. rewrite (checkField_shape_ok _ _ _ _ _ _ _ Hshape), Hpag.
  replace (negb (hasEnum m (JDLField.type f))
           && negb (getTypeCheckingFunction E entityName s (JDLField.type f))) with false
    by (rewrite <- negb_orb, Hty; reflexivity).
  rewrite (outcome_bind_ok _ _ tt (succeeds_when_warn _ _)).
  rewrite !when_false, !bind_ret_l. reflexivity.
Qed.

Lemma checkField_pagination E m s entityName k f :
  FieldValidator E f = None ->
  isReservedPaginationWords E (JDLField.name f) = true ->
  failsWith (checkField E m s entityName true (k, f))
    ("Field name '" ++ k ++ "' found in " ++ entityName
     ++ " is a reserved keyword, as it is used by Spring for pagination in the URL.").
Proof.
  intros Hshape Hpag. rewrite (checkField_shape_ok _ _ _ _ _ _ _ Hshape), Hpag.
  apply failsWith_bind_later; [apply succeeds_when_warn |].
  apply failsWith_bind_first. reflexivity.
Qed.

Lemma checkField_unknown_type E m s entityName filtering k f :
  FieldValidator E f = None ->
  filtering && isReservedPaginationWords E (JDLField.name f) = false ->
  hasEnum m (JDLField.type f) || getTypeCheckingFunction E entityName s (JDLField.type f) = false ->
  failsWith (checkField E m s entityName filtering (k, f))
    ("The type '" ++ JDLField.type f ++ "' is an unknown field type for field '"
     ++ k ++ "' of entity '" ++ entityName ++ "'.").
Proof.
  intros Hshape Hpag Hty. rewrite (checkField_shape_ok _ _ _ _ _ _ _ Hshape), Hpag.
  replace (negb (hasEnum m (JDLField.type f))
           && negb (getTypeCheckingFunction E entityName s (JDLField.type f))) with true
    by (rewrite <- negb_orb, Hty; reflexivity).
  apply failsWith_bind_later; [apply succeeds_when_warn |].
  rewrite when_false, bind_ret_l. apply failsWith_bind_first. reflexivity.
Qed.

Lemma getTypeCheckingFunction_spec E entityName s ty :
  getTypeCheckingFunction E entityName s ty = typeUniverseAccepts E s ty.
Proof.
  unfold getTypeCheckingFunction, typeUniverseAccepts.
  destruct (strictEq (applicationType s) (GATEWAY E)); reflexivity.
Qed.

(** C5: when the validation comes to a field (its shape accepted, its name
    not stopped by the pagination rule), the field's type is accepted iff it
    names a declared enumeration or the type-checking predicate accepts it,
    the predicate accepting every name on a gateway and being the type
    universe of the database type otherwise: if not accepted,
    [checkForErrors()] fails with [The type '<type>' is an unknown field type
    for field '<field>' of entity '<entity>'.]; if accepted, the field check
    goes on to the field's validations and ends as they do. *)
Theorem field_type_acceptance (E : Collaborators) (m : JDLObject.t) (s : Settings)
    (pre : list JDLEntity.t) (e : JDLEntity.t) (post : list JDLEntity.t)
    (fpre : list (string * JDLField.t)) (k : string) (f : JDLField.t)
    (fpost : list (string * JDLField.t)) :
  entityReached E m s pre e post ->
  fieldReached E m s e fpre k f fpost ->
  FieldValidator E f = None ->
  strictEq (databaseType s) (SQL E) && isReservedPaginationWords E (JDLField.name f) = false ->
  (strictEq (applicationType s) (GATEWAY E) = true ->
   forall ty, getTypeCheckingFunction E (JDLEntity.name e) s ty = true)
  /\ (strictEq (applicationType s) (GATEWAY E) = false ->
      forall ty, getTypeCheckingFunction E (JDLEntity.name e) s ty
                 = getIsType E (databaseType s) ty)
  /\ (hasEnum m (JDLField.type f) || typeUniverseAccepts E s (JDLField.type f) = false ->
      failsWith (validation E m s)
        ("The type '" ++ JDLField.type f ++ "' is an unknown field type for field '"
         ++ k ++ "' of entity '" ++ JDLEntity.name e ++ "'."))
  /\ (hasEnum m (JDLField.type f) || typeUniverseAccepts E s (JDLField.type f) = true ->
      outcome (checkField E m s (JDLEntity.name e) (strictEq (databaseType s) (SQL E)) (k, f))
      = outcome (checkForValidationErrors E f (hasEnum m (JDLField.type f)))).
Proof.
  intros Hent Hfield Hshape Hpag. repeat split.
  - intros Hgw ty. rewrite getTypeCheckingFunction_spec. unfold typeUniverseAccepts.
    rewrite Hgw. reflexivity.
  - intros Hgw ty. rewrite getTypeCheckingFunction_spec. unfold typeUniverseAccepts.
    rewrite Hgw. reflexivity.
  - intros Hty. apply (field_failure _ _ _ _ _ _ _ _ _ _ _ Hent Hfield).
    apply checkField_unknown_type; try assumption.
    rewrite getTypeCheckingFunction_spec. exact Hty.
  - intros Hty. apply checkField_continues; try assumption.
    rewrite getTypeCheckingFunction_spec. exact Hty.
Qed.

Lemma field_type_acceptance_witness :
  let fString := JDLField.mk "validField" "String" [] in
  let fColor := JDLField.mk "color" "Color" [] in
  let fWeird := JDLField.mk "weird" "WeirdType" [] in
  let valid := Sample.entity "Valid" [fString; fColor; fWeird] in
  let m := JDLObject.mk [valid] [] [JDLEnum.mk "Color" ["RED"; "GREEN"]] [] [] in
  let gateway := mkSettings None (Some "gateway") (Some "sql") None None in
  (entityReached Sample.collaborators m Sample.sqlMonolith [] valid []
   /\ fieldReached Sample.collaborators m Sample.sqlMonolith valid
        [("validField", fString); ("color", fColor)] "weird" fWeird []
   /\ failsWith (validation Sample.collaborators m Sample.sqlMonolith)
        "The type 'WeirdType' is an unknown field type for field 'weird' of entity 'Valid'.")
  /\ (entityReached Sample.collaborators m gateway [] valid []
      /\ fieldReached Sample.collaborators m gateway valid
           [("validField", fString); ("color", fColor)] "weird" fWeird []
      /\ outcome (checkField Sample.collaborators m gateway "Valid" true ("weird", fWeird))
         = inr tt).
Proof.
  intros fString fColor fWeird valid m gateway.
  assert (He1 : entityReached Sample.collaborators m Sample.sqlMonolith [] valid []).
  { repeat split. constructor. }
  assert (He2 : entityReached Sample.collaborators m gateway [] valid []).
  { repeat split. constructor. }
  assert (Hf1 : fieldReached Sample.collaborators m Sample.sqlMonolith valid
                  [("validField", fString); ("color", fColor)] "weird" fWeird []).
  { repeat split. repeat constructor. }
  assert (Hf2 : fieldReached Sample.collaborators m gateway valid
                  [("validField", fString); ("color", fColor)] "weird" fWeird []).
  { repeat split. repeat constructor. }
  split.
  - split; [exact He1 | split; [exact Hf1 |]].
    destruct (field_type_acceptance Sample.collaborators m Sample.sqlMonolith
                [] valid [] _ "weird" fWeird [] He1 Hf1 eq_refl eq_refl)
      as (_ & _ & Hrejected & _).
    exact (Hrejected eq_refl).
  - split; [exact He2 | split; [exact Hf2 |]].
    destruct (field_type_acceptance Sample.collaborators m gateway
                [] valid [] _ "weird" fWeird [] He2 Hf2 eq_refl eq_refl)
      as (_ & _ & _ & Haccepted).
    exact (Haccepted eq_refl).
Defined.

(** C9: when the validation comes to a field whose shape is accepted:
    with the SQL database type and a field name that is a pagination word,
    [checkForErrors()] fails with [Field name '<field>' found in <entity> is a
    reserved keyword, as it is used by Spring for pagination in the URL.];
    with another database type the field check, whatever the field's name,
    ends as the check of its validations does once its type is accepted;
    and a reserved field name makes the field check log
    [The name '<name>' is a reserved keyword, so it will be prefixed with the
    value of 'jhiPrefix'.] and nothing else, while the check goes on: without
    a pagination or type failure it ends as the field's validations do. *)
Theorem pagination_words_and_reserved_field_names (E : Collaborators) (m : JDLObject.t)
    (s : Settings) (pre : list JDLEntity.t) (e : JDLEntity.t) (post : list JDLEntity.t)
    (fpre : list (string * JDLField.t)) (k : string) (f : JDLField.t)
    (fpost : list (string * JDLField.t)) :
  entityReached E m s pre e post ->
  fieldReached E m s e fpre k f fpost ->
  FieldValidator E f = None ->
  (databaseType s = Some (SQL E) ->
   isReservedPaginationWords E (JDLField.name f) = true ->
   failsWith (validation E m s)
     ("Field name '" ++ k ++ "' found in " ++ JDLEntity.name e
      ++ " is a reserved keyword, as it is used by Spring for pagination in the URL."))
  /\ (databaseType s <> Some (SQL E) ->
      hasEnum m (JDLField.type f) || typeUniverseAccepts E s (JDLField.type f) = true ->
      outcome (checkField E m s (JDLEntity.name e) (strictEq (databaseType s) (SQL E)) (k, f))
      = outcome (checkForValidationErrors E f (hasEnum m (JDLField.type f))))
  /\ (isReservedFieldName E (JDLField.name f) = true ->
      warnings (checkField E m s (JDLEntity.name e) (strictEq (databaseType s) (SQL E)) (k, f))
      = ["The name '" ++ JDLField.name f
         ++ "' is a reserved keyword, so it will be prefixed with the value of 'jhiPrefix'."]
      /\ (strictEq (databaseType s) (SQL E) && isReservedPaginationWords E (JDLField.name f)
          = false ->
          hasEnum m (JDLField.type f) || typeUniverseAccepts E s (JDLField.type f) = true ->
          outcome (checkField E m s (JDLEntity.name e)
                     (strictEq (databaseType s) (SQL E)) (k, f))
          = outcome (checkForValidationErrors E f (hasEnum m (JDLField.type f))))).
Proof.
  intros Hent Hfield Hshape. split; [| split].
  - intros Hdb Hpag. apply (field_failure _ _ _ _ _ _ _ _ _ _ _ Hent Hfield).
    rewrite Hdb, strictEq_same. apply checkField_pagination; assumption.
  - intros Hdb Hty. apply checkField_continues; try assumption.
    + rewrite (strictEq_other _ _ Hdb). reflexivity.
    + rewrite getTypeCheckingFunction_spec. exact Hty.
  - intros Hres. split.
    + rewrite (checkField_warnings _ _ _ _ _ _ _ Hshape), Hres. reflexivity.
    + intros Hpag Hty. apply checkField_continues; try assumption.
      rewrite getTypeCheckingFunction_spec. exact Hty.
Qed.

Lemma pagination_words_and_reserved_field_names_witness :
  let fPage := JDLField.mk "page" "String" [] in
  let fCatch := JDLField.mk "catch" "String" [] in
  let paged := Sample.entity "Paged" [fCatch; fPage] in
  let m := JDLObject.mk [paged] [] [] [] [] in
  let cassandra := mkSettings None (Some "monolith") (Some "cassandra") None None in
  (entityReached Sample.collaborators m Sample.sqlMonolith [] paged []
   /\ fieldReached Sample.collaborators m Sample.sqlMonolith paged
        [("catch", fCatch)] "page" fPage []
   /\ failsWith (validation Sample.collaborators m Sample.sqlMonolith)
        "Field name 'page' found in Paged is a reserved keyword, as it is used by Spring for pagination in the URL.")
  /\ (entityReached Sample.collaborators m cassandra [] paged []
      /\ fieldReached Sample.collaborators m cassandra paged
           [("catch", fCatch)] "page" fPage []
      /\ outcome (checkField Sample.collaborators m cassandra "Paged" false ("page", fPage))
         = inr tt)
  /\ (fieldReached Sample.collaborators m Sample.sqlMonolith paged [] "catch" fCatch
        [("page", fPage)]
      /\ warnings (checkField Sample.collaborators m Sample.sqlMonolith "Paged" true
                     ("catch", fCatch))
         = ["The name 'catch' is a reserved keyword, so it will be prefixed with the value of 'jhiPrefix'."]
      /\ outcome (checkField Sample.collaborators m Sample.sqlMonolith "Paged" true
                    ("catch", fCatch))
         = inr tt).
Proof.
  intros fPage fCatch paged m cassandra.
  assert (He1 : entityReached Sample.collaborators m Sample.sqlMonolith [] paged []).
  { repeat split. constructor. }
  assert (He2 : entityReached Sample.collaborators m cassandra [] paged []).
  { repeat split. constructor. }
  assert (Hf1 : fieldReached Sample.collaborators m Sample.sqlMonolith paged
                  [("catch", fCatch)] "page" fPage []).
  { repeat split. repeat constructor. }
  assert (Hf2 : fieldReached Sample.collaborators m cassandra paged
                  [("catch", fCatch)] "page" fPage []).
  { repeat split. repeat constructor. }
  assert (Hf3 : fieldReached Sample.collaborators m Sample.sqlMonolith paged
                  [] "catch" fCatch [("page", fPage)]).
  { repeat split. constructor. }
  split; [| split].
  - split; [exact He1 | split; [exact Hf1 |]].
    destruct (pagination_words_and_reserved_field_names Sample.collaborators m
                Sample.sqlMonolith [] paged [] _ "page" fPage [] He1 Hf1 eq_refl)
      as (Hfatal & _ & _).
    exact (Hfatal eq_refl eq_refl).
  - split; [exact He2 | split; [exact Hf2 |]].
    destruct (pagination_words_and_reserved_field_names Sample.collaborators m
                cassandra [] paged [] _ "page" fPage [] He2 Hf2 eq_refl)
      as (_ & Hharmless & _).
    refine (Hharmless _ eq_refl). discriminate.
  - split; [exact Hf3 |].
    destruct (pagination_words_and_reserved_field_names Sample.collaborators m
                Sample.sqlMonolith [] paged [] _ "catch" fCatch _ He1 Hf3 eq_refl)
      as (_ & _ & Hwarned).
    destruct (Hwarned eq_refl) as (Hlog & Hgoes).
    split; [exact Hlog | exact (Hgoes eq_refl eq_refl)].
Defined.

(** ** Relationships *)

Lemma checkForRelationshipErrors_some E m s :
  JDLObject.relationships m <> [] ->
  checkForRelationshipErrors E m s
  = forEach (checkRelationship E m (skippedUserManagementValue E m s))
      (JDLObject.relationships m).
Proof.
  unfold checkForRelationshipErrors, getRelationshipQuantity.
  destruct (JDLObject.relationships m); [congruence | reflexivity].
Qed.

Lemma relationship_failure E m s pre r post msg :
  relationshipReached E m s pre r post ->
  failsWith (checkForAbsentEntities r (doesEntityExist m) (skippedUserManagementValue E m s)) msg ->
  failsWith (validation E m s) msg.
Proof.
  intros (Hbp & Hents & Hrels & Hpre & Hshape) Hr.
  rewrite (validation_phases _ _ _ Hbp). unfold checkAll.
  apply failsWith_bind_later; [exact Hents |].
  apply failsWith_bind_first.
  rewrite checkForRelationshipErrors_some by (rewrite Hrels; destruct pre; discriminate).
  rewrite Hrels. apply forEach_fails_at; [exact Hpre |].
  unfold checkRelationship. rewrite Hshape, validate_None, bind_ret_l. exact Hr.
Qed.

Lemma relationship_passes E m s pre r post :
  relationshipReached E m s pre r post ->
  absentEntities r (doesEntityExist m) (skippedUserManagementValue E m s) = [] ->
  succeeds (checkRelationship E m (skippedUserManagementValue E m s) r).
Proof.
  intros (_ & _ & _ & _ & Hshape) Habsent.
  unfold checkRelationship, checkForAbsentEntities.
  rewrite Hshape, validate_None, bind_ret_l, Habsent. reflexivity.
Qed.

Lemma absentEntities_cases r exists_ skipped :
  absentEntities r exists_ skipped
  = ((if exists_ (JDLRelationship.from r) then [] else [JDLRelationship.from r])
     ++ (if toReported exists_ skipped r then [JDLRelationship.to r] else []))%list.
Proof.
  unfold absentEntities, toReported. destruct (exists_ (JDLRelationship.from r)); reflexivity.
Qed.

Lemma absent_from_only r exists_ skipped :
  exists_ (JDLRelationship.from r) = false ->
  toReported exists_ skipped r = false ->
  checkForAbsentEntities r exists_ skipped
  = throw ("In the relationship between " ++ JDLRelationship.from r ++ " and "
           ++ JDLRelationship.to r ++ ", " ++ JDLRelationship.from r ++ " is not declared.").
Proof.
  intros Hfrom Hto. unfold checkForAbsentEntities.
  rewrite absentEntities_cases, Hfrom, Hto. reflexivity.
Qed.

Lemma absent_to_only r exists_ skipped :
  exists_ (JDLRelationship.from r) = true ->
  toReported exists_ skipped r = true ->
  checkForAbsentEntities r exists_ skipped
  = throw ("In the relationship between " ++ JDLRelationship.from r ++ " and "
           ++ JDLRelationship.to r ++ ", " ++ JDLRelationship.to r ++ " is not declared.").
Proof.
  intros Hfrom Hto. unfold checkForAbsentEntities.
  rewrite absentEntities_cases, Hfrom, Hto. reflexivity.
Qed.

Lemma append_assoc (a b c : string) : (a ++ b) ++ c = a ++ b ++ c.
Proof. induction a as [| ch a IH]; simpl; [reflexivity | rewrite IH; reflexivity]. Qed.

Lemma absent_both r exists_ skipped :
  exists_ (JDLRelationship.from r) = false ->
  toReported exists_ skipped r = true ->
  checkForAbsentEntities r exists_ skipped
  = throw ("In the relationship between " ++ JDLRelationship.from r ++ " and "
           ++ JDLRelationship.to r ++ ", " ++ JDLRelationship.from r ++ " and "
           ++ JDLRelationship.to r ++ " are not declared.").
Proof.
  intros Hfrom Hto. unfold checkForAbsentEntities.
  rewrite absentEntities_cases, Hfrom, Hto. simpl.
  rewrite !append_assoc. reflexivity.
Qed.

Lemma absent_none r exists_ skipped :
  exists_ (JDLRelationship.from r) = true ->
  toReported exists_ skipped r = false ->
  absentEntities r exists_ skipped = [].
Proof.
  intros Hfrom Hto. rewrite absentEntities_cases, Hfrom, Hto. reflexivity.
Qed.

(** The absent-entities check looks at the truth value of the flag only. *)
Lemma checkForAbsentEntities_truthy r exists_ v v' :
  truthy v = truthy v' ->
  checkForAbsentEntities r exists_ v = checkForAbsentEntities r exists_ v'.
Proof.
  intros Hv. unfold checkForAbsentEntities, absentEntities. rewrite Hv. reflexivity.
Qed.

(** C1, as stated, fails: [Source] is declared and [User] is not. Without
    skipped user management the validation succeeds, where the claim has it
    fail naming [User]; with skipped user management it fails naming [User],
    where the claim has it succeed. *)
Lemma user_destination_claim_fails :
  isUserManagementEntity "User" = true
  /\ doesEntityExist Sample.sourceToUser "User" = false
  /\ skippedUserManagement Sample.sqlMonolith = None
  /\ validation Sample.collaborators Sample.sourceToUser Sample.sqlMonolith = ([], inr tt)
  /\ skippedUserManagement (Sample.skipping Sample.sqlMonolith) = Some true
  /\ validation Sample.collaborators Sample.sourceToUser (Sample.skipping Sample.sqlMonolith)
     = ([], inl "In the relationship between Source and User, User is not declared.").
Proof. repeat split. Qed.

(** C1, as the code has it: when the validation comes to a relationship whose [from]
    endpoint is declared and whose [to] endpoint is the implicit User (or
    Authority) entity and is not declared: if user management is not skipped,
    the relationship passes its checks and [User] is not reported; if user
    management is skipped, [checkForErrors()] fails with
    [In the relationship between <from> and <to>, <to> is not declared.] *)
Theorem user_destination_exemption (E : Collaborators) (m : JDLObject.t) (s : Settings)
    (pre : list JDLRelationship.t) (r : JDLRelationship.t) (post : list JDLRelationship.t) :
  relationshipReached E m s pre r post ->
  doesEntityExist m (JDLRelationship.from r) = true ->
  doesEntityExist m (JDLRelationship.to r) = false ->
  isUserManagementEntity (JDLRelationship.to r) = true ->
  (truthy (skippedUserManagementValue E m s) = false ->
   absentEntities r (doesEntityExist m) (skippedUserManagementValue E m s) = []
   /\ succeeds (checkRelationship E m (skippedUserManagementValue E m s) r))
  /\ (truthy (skippedUserManagementValue E m s) = true ->
      failsWith (validation E m s)
        ("In the relationship between " ++ JDLRelationship.from r ++ " and "
         ++ JDLRelationship.to r ++ ", " ++ JDLRelationship.to r ++ " is not declared.")).
Proof.
  intros Hreach Hfrom Hto Huser. split; intros Hskip.
  - assert (Habsent : absentEntities r (doesEntityExist m) (skippedUserManagementValue E m s) = []).
    { apply absent_none; [exact Hfrom |].
      unfold toReported. rewrite Hto, Huser, Hskip. reflexivity. }
    split; [exact Habsent | exact (relationship_passes _ _ _ _ _ _ Hreach Habsent)].
  - apply (relationship_failure _ _ _ _ _ _ _ Hreach).
    rewrite absent_to_only; [reflexivity | exact Hfrom |].
    unfold toReported. rewrite Hto, Huser, Hskip. reflexivity.
Qed.

Lemma user_destination_exemption_witness :
  let r := Sample.oneToOne "Source" "User" in
  let skipping := Sample.skipping Sample.sqlMonolith in
  (relationshipReached Sample.collaborators Sample.sourceToUser Sample.sqlMonolith [] r []
   /\ doesEntityExist Sample.sourceToUser "Source" = true
   /\ doesEntityExist Sample.sourceToUser "User" = false
   /\ isUserManagementEntity "User" = true
   /\ succeeds (checkRelationship Sample.collaborators Sample.sourceToUser FlagUndefined r))
  /\ (relationshipReached Sample.collaborators Sample.sourceToUser skipping [] r []
      /\ failsWith (validation Sample.collaborators Sample.sourceToUser skipping)
           "In the relationship between Source and User, User is not declared.").
Proof.
  intros r skipping.
  assert (H1 : relationshipReached Sample.collaborators Sample.sourceToUser
                 Sample.sqlMonolith [] r []).
  { repeat split. constructor. }
  assert (H2 : relationshipReached Sample.collaborators Sample.sourceToUser skipping [] r []).
  { repeat split. constructor. }
  split.
  - destruct (user_destination_exemption Sample.collaborators Sample.sourceToUser
                Sample.sqlMonolith [] r [] H1 eq_refl eq_refl eq_refl) as (Hquiet & _).
    exact (conj H1 (conj eq_refl (conj eq_refl (conj eq_refl (proj2 (Hquiet eq_refl)))))).
  - destruct (user_destination_exemption Sample.collaborators Sample.sourceToUser
                skipping [] r [] H2 eq_refl eq_refl eq_refl) as (_ & Hfatal).
    exact (conj H2 (Hfatal eq_refl)).
Defined.

(** C3, as stated, fails: the relationship starts at [User], which is not
    declared, user management is skipped, and the validation fails on that
    very endpoint. *)
Lemma user_source_claim_fails :
  isUserManagementEntity "User" = true
  /\ doesEntityExist Sample.userToDestination "User" = false
  /\ truthy (skippedUserManagementValue Sample.collaborators Sample.userToDestination
               (Sample.skipping Sample.sqlMonolith)) = true
  /\ validation Sample.collaborators Sample.userToDestination
       (Sample.skipping Sample.sqlMonolith)
     = ([], inl "In the relationship between User and Destination, User is not declared.").
Proof. repeat split. Qed.

(** C3, as the code has it: the [from] endpoint has no exemption. When the validation
    comes to a relationship whose [from] endpoint is not declared,
    [checkForErrors()] fails and the message names that endpoint, also when
    the endpoint is the implicit User or Authority entity and user management
    is skipped: [In the relationship between <from> and <to>, <from> is not
    declared.], or [... <from> and <to> are not declared.] when the [to]
    endpoint is reported as well. *)
Theorem undeclared_source_is_reported (E : Collaborators) (m : JDLObject.t) (s : Settings)
    (pre : list JDLRelationship.t) (r : JDLRelationship.t) (post : list JDLRelationship.t) :
  relationshipReached E m s pre r post ->
  doesEntityExist m (JDLRelationship.from r) = false ->
  failsWith (validation E m s)
    ("In the relationship between " ++ JDLRelationship.from r ++ " and "
     ++ JDLRelationship.to r ++ ", " ++ JDLRelationship.from r
     ++ (if toReported (doesEntityExist m) (skippedUserManagementValue E m s) r
         then " and " ++ JDLRelationship.to r ++ " are not declared."
         else " is not declared.")).
Proof.
  intros Hreach Hfrom. apply (relationship_failure _ _ _ _ _ _ _ Hreach).
  destruct (toReported (doesEntityExist m) (skippedUserManagementValue E m s) r) eqn:Hto.
  - rewrite (absent_both _ _ _ Hfrom Hto). reflexivity.
  - rewrite (absent_from_only _ _ _ Hfrom Hto). reflexivity.
Qed.

Lemma undeclared_source_is_reported_witness :
  let r := Sample.oneToOne "User" "Destination" in
  let skipping := Sample.skipping Sample.sqlMonolith in
  relationshipReached Sample.collaborators Sample.userToDestination skipping [] r []
  /\ doesEntityExist Sample.userToDestination "User" = false
  /\ failsWith (validation Sample.collaborators Sample.userToDestination skipping)
       "In the relationship between User and Destination, User is not declared.".
Proof.
  intros r skipping.
  assert (H : relationshipReached Sample.collaborators Sample.userToDestination skipping [] r []).
  { repeat split. constructor. }
  exact (conj H (conj eq_refl
           (undeclared_source_is_reported Sample.collaborators Sample.userToDestination
              skipping [] r [] H eq_refl))).
Defined.

(** C4: when the validation comes to a relationship, the endpoints it
    reports are [from] if it is not declared and [to] if it is not declared
    and not exempt; with at least one of them, [checkForErrors()] throws the
    one error [In the relationship between <from> and <to>, <names> <verb> not
    declared.], where [<names>] is the reported names joined by [' and '] and
    [<verb>] is [is] for one name and [are] for two; with none the
    relationship passes. *)
Theorem absent_endpoints_message (E : Collaborators) (m : JDLObject.t) (s : Settings)
    (pre : list JDLRelationship.t) (r : JDLRelationship.t) (post : list JDLRelationship.t) :
  relationshipReached E m s pre r post ->
  (doesEntityExist m (JDLRelationship.from r) = false ->
   toReported (doesEntityExist m) (skippedUserManagementValue E m s) r = false ->
   failsWith (validation E m s)
     ("In the relationship between " ++ JDLRelationship.from r ++ " and "
      ++ JDLRelationship.to r ++ ", " ++ JDLRelationship.from r ++ " is not declared."))
  /\ (doesEntityExist m (JDLRelationship.from r) = true ->
      toReported (doesEntityExist m) (skippedUserManagementValue E m s) r = true ->
      failsWith (validation E m s)
        ("In the relationship between " ++ JDLRelationship.from r ++ " and "
         ++ JDLRelationship.to r ++ ", " ++ JDLRelationship.to r ++ " is not declared."))
  /\ (doesEntityExist m (JDLRelationship.from r) = false ->
      toReported (doesEntityExist m) (skippedUserManagementValue E m s) r = true ->
      failsWith (validation E m s)
        ("In the relationship between " ++ JDLRelationship.from r ++ " and "
         ++ JDLRelationship.to r ++ ", " ++ JDLRelationship.from r ++ " and "
         ++ JDLRelationship.to r ++ " are not declared."))
  /\ (doesEntityExist m (JDLRelationship.from r) = true ->
      toReported (doesEntityExist m) (skippedUserManagementValue E m s) r = false ->
      succeeds (checkRelationship E m (skippedUserManagementValue E m s) r)).
Proof.
  intros Hreach. repeat split; intros Hfrom Hto.
  - apply (relationship_failure _ _ _ _ _ _ _ Hreach).
    rewrite (absent_from_only _ _ _ Hfrom Hto). reflexivity.
  - apply (relationship_failure _ _ _ _ _ _ _ Hreach).
    rewrite (absent_to_only _ _ _ Hfrom Hto). reflexivity.
  - apply (relationship_failure _ _ _ _ _ _ _ Hreach).
    rewrite (absent_both _ _ _ Hfrom Hto). reflexivity.
  - apply (relationship_passes _ _ _ _ _ _ Hreach). apply absent_none; assumption.
Qed.

Lemma absent_endpoints_message_witness :
  let valid := Sample.entity "Valid" [] in
  let ok := Sample.oneToOne "Valid" "Valid" in
  let m (r : JDLRelationship.t) := JDLObject.mk [valid] [ok; r] [] [] [] in
  let rFrom := Sample.oneToOne "Source" "Valid" in
  let rTo := Sample.oneToOne "Valid" "Other" in
  let rBoth := Sample.oneToOne "Source" "Other" in
  (relationshipReached Sample.collaborators (m rFrom) Sample.sqlMonolith [ok] rFrom []
   /\ failsWith (validation Sample.collaborators (m rFrom) Sample.sqlMonolith)
        "In the relationship between Source and Valid, Source is not declared.")
  /\ (relationshipReached Sample.collaborators (m rTo) Sample.sqlMonolith [ok] rTo []
      /\ failsWith (validation Sample.collaborators (m rTo) Sample.sqlMonolith)
           "In the relationship between Valid and Other, Other is not declared.")
  /\ (relationshipReached Sample.collaborators (m rBoth) Sample.sqlMonolith [ok] rBoth []
      /\ failsWith (validation Sample.collaborators (m rBoth) Sample.sqlMonolith)
           "In the relationship between Source and Other, Source and Other are not declared.").
Proof.
  intros valid ok m rFrom rTo rBoth.
  assert (H : forall r, relationshipReached Sample.collaborators (m r) Sample.sqlMonolith [ok] r []).
  { intros r. repeat split. repeat constructor. }
  split; [| split].
  - destruct (absent_endpoints_message Sample.collaborators (m rFrom) Sample.sqlMonolith
                [ok] rFrom [] (H rFrom)) as (Hone & _).
    exact (conj (H rFrom) (Hone eq_refl eq_refl)).
  - destruct (absent_endpoints_message Sample.collaborators (m rTo) Sample.sqlMonolith
                [ok] rTo [] (H rTo)) as (_ & Hone & _).
    exact (conj (H rTo) (Hone eq_refl eq_refl)).
  - destruct (absent_endpoints_message Sample.collaborators (m rBoth) Sample.sqlMonolith
                [ok] rBoth [] (H rBoth)) as (_ & _ & Htwo & _).
    exact (conj (H rBoth) (Htwo eq_refl eq_refl)).
Defined.

(** *** The value of the skip-user-management exemption *)

Lemma getOptionsForName_In m optionName o :
  In o (getOptionsForName m optionName)
  <-> In o (JDLObject.options m) /\ JDLOption.name o = optionName.
Proof.
  unfold getOptionsForName. rewrite filter_In, String.eqb_eq. reflexivity.
Qed.

Lemma skippedUserManagementValue_truthy E m s :
  truthy (skippedUserManagementValue E m s) = true
  <-> skippedUserManagement s = Some true
      \/ exists o, In o (JDLObject.options m) /\ JDLOption.name o = SKIP_USER_MANAGEMENT E.
Proof.
  unfold skippedUserManagementValue.
  destruct (getOptionsForName m (SKIP_USER_MANAGEMENT E)) as [| o rest] eqn:Hopts.
  - assert (Hnone : ~ exists o, In o (JDLObject.options m)
                                /\ JDLOption.name o = SKIP_USER_MANAGEMENT E).
    { intros (o & Ho). apply getOptionsForName_In in Ho. rewrite Hopts in Ho. exact Ho. }
    destruct (skippedUserManagement s) as [[|] |]; simpl; split; intros H;
      try reflexivity; try discriminate; try (left; reflexivity);
      destruct H as [H | H]; try discriminate; contradiction.
  - assert (Hsome : exists o, In o (JDLObject.options m)
                              /\ JDLOption.name o = SKIP_USER_MANAGEMENT E).
    { exists o. apply getOptionsForName_In. rewrite Hopts. left. reflexivity. }
    destruct (skippedUserManagement s) as [[|] |]; simpl; split; intros _;
      try reflexivity; (left; reflexivity) || (right; exact Hsome).
Qed.

(** C10: for a model with at least one relationship, the relationship phase
    checks every relationship with the value
    [applicationSettings.skippedUserManagement || getOptionsForName(skipUserManagement)[0]]:
    it is [true] when the settings flag is true, and otherwise the first
    option of that name the model carries; so the exemption is enabled iff
    the flag is true or the model carries such an option, and with such an
    option the absent-entities check does what it does under a true flag,
    although the flag is false or missing. *)
Theorem model_option_enables_exemption (E : Collaborators) (m : JDLObject.t) (s : Settings) :
  JDLObject.relationships m <> [] ->
  checkForRelationshipErrors E m s
  = forEach (fun r =>
               validate (RelationshipValidator E r (skippedUserManagementValue E m s)) ;;
               checkForAbsentEntities r (doesEntityExist m) (skippedUserManagementValue E m s))
      (JDLObject.relationships m)
  /\ (skippedUserManagement s = Some true -> skippedUserManagementValue E m s = FlagBool true)
  /\ (forall o rest,
        skippedUserManagement s <> Some true ->
        getOptionsForName m (SKIP_USER_MANAGEMENT E) = o :: rest ->
        skippedUserManagementValue E m s = FlagOption o)
  /\ (truthy (skippedUserManagementValue E m s) = true
      <-> skippedUserManagement s = Some true
          \/ exists o, In o (JDLObject.options m)
                       /\ JDLOption.name o = SKIP_USER_MANAGEMENT E)
  /\ (forall o r,
        In o (JDLObject.options m) ->
        JDLOption.name o = SKIP_USER_MANAGEMENT E ->
        checkForAbsentEntities r (doesEntityExist m) (skippedUserManagementValue E m s)
        = checkForAbsentEntities r (doesEntityExist m) (FlagBool true)).
Proof.
  intros Hrels. split; [| split; [| split; [| split]]].
  - apply checkForRelationshipErrors_some. exact Hrels.
  - unfold skippedUserManagementValue. intros ->. reflexivity.
  - intros o rest Hflag Hopts. unfold skippedUserManagementValue. rewrite Hopts.
    destruct (skippedUserManagement s) as [[|] |]; [congruence | reflexivity | reflexivity].
  - apply skippedUserManagementValue_truthy.
  - intros o r Hin Hname. apply checkForAbsentEntities_truthy. simpl.
    apply skippedUserManagementValue_truthy. right. exists o. split; assumption.
Qed.

Lemma model_option_enables_exemption_witness :
  let skip := JDLOption.mk JDLOption.UNARY "skipUserManagement" None [] [] in
  let r := Sample.oneToOne "Source" "User" in
  let m := JDLObject.mk [Sample.entity "Source" []] [r] [] [] [skip] in
  let s := mkSettings None (Some "monolith") (Some "sql") (Some false) None in
  JDLObject.relationships m <> []
  /\ skippedUserManagementValue Sample.collaborators m s = FlagOption skip
  /\ checkForAbsentEntities r (doesEntityExist m) (skippedUserManagementValue Sample.collaborators m s)
     = checkForAbsentEntities r (doesEntityExist m) (FlagBool true)
  /\ validation Sample.collaborators m s
     = ([], inl "In the relationship between Source and User, User is not declared.").
Proof.
  intros skip r m s.
  assert (Hrels : JDLObject.relationships m <> []) by discriminate.
  destruct (model_option_enables_exemption Sample.collaborators m s Hrels)
    as (_ & _ & Hfirst & _ & Hsame).
  split; [exact Hrels | split; [| split]].
  - apply (Hfirst skip []); [discriminate | reflexivity].
  - apply (Hsame skip r); [left; reflexivity | reflexivity].
  - reflexivity.
Defined.

(** ** Options *)

Lemma checkOption_shape_ok E s o :
  optionShapeAccepted E o ->
  checkOption E s o = checkForPaginationInAppWithCassandra E o s.
Proof.
  unfold optionShapeAccepted, checkOption.
  destruct (JDLOption.getType o); intros ->; rewrite validate_None, bind_ret_l; reflexivity.
Qed.

Lemma pagination_check_other_database E s o :
  databaseType s <> Some (CASSANDRA E) ->
  checkForPaginationInAppWithCassandra E o s = ret tt.
Proof.
  intros Hdb. unfold checkForPaginationInAppWithCassandra.
  rewrite (strictEq_other _ _ Hdb). reflexivity.
Qed.

Lemma pagination_check_cassandra E s o :
  databaseType s = Some (CASSANDRA E) ->
  checkForPaginationInAppWithCassandra E o s
  = when (String.eqb (JDLOption.name o) (PAGINATION E)) (throw paginationError).
Proof.
  intros Hdb. unfold checkForPaginationInAppWithCassandra.
  rewrite Hdb, strictEq_same. reflexivity.
Qed.

Lemma options_fail_with_cassandra E s o (l : list JDLOption.t) :
  databaseType s = Some (CASSANDRA E) ->
  Forall (optionShapeAccepted E) l ->
  In o l ->
  JDLOption.name o = PAGINATION E ->
  failsWith (forEach (checkOption E s) l) paginationError.
Proof.
  intros Hdb Hshapes Hin Hname.
  induction Hshapes as [| o' l Ho' _ IH]; [contradiction |].
  simpl. rewrite (checkOption_shape_ok _ _ _ Ho'), (pagination_check_cassandra _ _ _ Hdb).
  destruct (String.eqb (JDLOption.name o') (PAGINATION E)) eqn:Hpag.
  - apply failsWith_bind_first. reflexivity.
  - rewrite when_false, bind_ret_l. apply IH.
    destruct Hin as [-> | Hin]; [| exact Hin].
    rewrite Hname, String.eqb_refl in Hpag. discriminate.
Qed.

Lemma options_pass_other_database E s (l : list JDLOption.t) :
  databaseType s <> Some (CASSANDRA E) ->
  Forall (optionShapeAccepted E) l ->
  succeeds (forEach (checkOption E s) l).
Proof.
  intros Hdb Hshapes. apply forEach_succeeds.
  apply Forall_impl with (2 := Hshapes). intros o Ho.
  rewrite (checkOption_shape_ok _ _ _ Ho), (pagination_check_other_database _ _ _ Hdb).
  reflexivity.
Qed.

Lemma validation_at_options E m s :
  optionsReached E m s ->
  outcome (validation E m s) = outcome (checkForOptionErrors E m s).
Proof.
  intros (Hbp & H1 & H2 & H3 & H4).
  rewrite (validation_phases _ _ _ Hbp). unfold checkAll.
  rewrite (outcome_bind_ok _ _ tt H1), (outcome_bind_ok _ _ tt H2),
          (outcome_bind_ok _ _ tt H3), (outcome_bind_ok _ _ tt H4).
  reflexivity.
Qed.

(** C6: when the validation comes to the options of a model that holds an
    option named Pagination, every option having an accepted shape: with the
    Cassandra database type [checkForErrors()] fails with
    [Pagination isn't allowed when the application uses Cassandra.]; with any
    other database type the pagination rule lets every option pass and the
    validation succeeds. *)
Theorem pagination_with_cassandra (E : Collaborators) (m : JDLObject.t) (s : Settings)
    (o : JDLOption.t) :
  optionsReached E m s ->
  Forall (optionShapeAccepted E) (JDLObject.options m) ->
  In o (JDLObject.options m) ->
  JDLOption.name o = PAGINATION E ->
  (databaseType s = Some (CASSANDRA E) ->
   failsWith (validation E m s)
     "Pagination isn't allowed when the application uses Cassandra.")
  /\ (databaseType s <> Some (CASSANDRA E) ->
      (forall o', checkForPaginationInAppWithCassandra E o' s = ret tt)
      /\ succeeds (validation E m s)).
Proof.
  intros Hreach Hshapes Hin Hname.
  assert (Hsome : checkForOptionErrors E m s
                  = forEach (checkOption E s) (JDLObject.options m)).
  { unfold checkForOptionErrors, getOptionQuantity.
    destruct (JDLObject.options m); [contradiction | reflexivity]. }
  split; intros Hdb.
  - unfold failsWith. rewrite (validation_at_options _ _ _ Hreach), Hsome.
    exact (options_fail_with_cassandra _ _ _ _ Hdb Hshapes Hin Hname).
  - split.
    + intros o'. apply pagination_check_other_database. exact Hdb.
    + unfold succeeds. rewrite (validation_at_options _ _ _ Hreach), Hsome.
      exact (options_pass_other_database _ _ _ Hdb Hshapes).
Qed.

Lemma pagination_with_cassandra_witness :
  let dto := JDLOption.mk JDLOption.BINARY "dto" (Some "mapstruct") ["A"] [] in
  let pagination := JDLOption.mk JDLOption.BINARY "pagination" (Some "pagination") [] [] in
  let m := JDLObject.mk [] [] [] [] [dto; pagination] in
  let cassandra := mkSettings None (Some "monolith") (Some "cassandra") None None in
  optionsReached Sample.collaborators m cassandra
  /\ optionsReached Sample.collaborators m Sample.sqlMonolith
  /\ Forall (optionShapeAccepted Sample.collaborators) (JDLObject.options m)
  /\ In pagination (JDLObject.options m)
  /\ failsWith (validation Sample.collaborators m cassandra)
       "Pagination isn't allowed when the application uses Cassandra."
  /\ succeeds (validation Sample.collaborators m Sample.sqlMonolith).
Proof.
  intros dto pagination m cassandra.
  assert (H1 : optionsReached Sample.collaborators m cassandra) by (repeat split).
  assert (H2 : optionsReached Sample.collaborators m Sample.sqlMonolith) by (repeat split).
  assert (Hs : Forall (optionShapeAccepted Sample.collaborators) (JDLObject.options m))
    by (repeat constructor).
  assert (Hin : In pagination (JDLObject.options m)) by (right; left; reflexivity).
  destruct (pagination_with_cassandra Sample.collaborators m cassandra pagination
              H1 Hs Hin eq_refl) as (Hfatal & _).
  destruct (pagination_with_cassandra Sample.collaborators m Sample.sqlMonolith pagination
              H2 Hs Hin eq_refl) as (_ & Hfine).
  refine (conj H1 (conj H2 (conj Hs (conj Hin (conj (Hfatal eq_refl) (proj2 (Hfine _))))))).
  discriminate.
Defined.

(** ** Beyond the single rules: the validator as a whole *)

Lemma warnings_bind_silent {A B} (m : M A) (k : A -> M B) :
  (forall a, warnings (k a) = []) -> warnings (bind m k) = warnings m.
Proof.
  intros Hk. destruct m as [w [e | a]]; simpl; [reflexivity |].
  specialize (Hk a). destruct (k a) as [w' r]. simpl in *. subst w'.
  rewrite app_nil_r. reflexivity.
Qed.

Lemma warnings_validate (r : option string) : warnings (validate r) = [].
Proof. destruct r; reflexivity. Qed.

Lemma warnings_when_throw (c : bool) (msg : string) : warnings (when c (throw msg)) = [].
Proof. destruct c; reflexivity. Qed.

Lemma forEach_validate {A} (v : A -> option string) (l : list A) :
  forEach (fun x => validate (v x)) l = validate (firstRejection v l).
Proof.
  induction l as [| x r IH]; [reflexivity |].
  cbn [forEach firstRejection]. destruct (v x); [reflexivity |].
  rewrite validate_None, bind_ret_l. exact IH.
Qed.

Lemma forEach_ext {A} (f g : A -> M unit) (l : list A) :
  (forall x, In x l -> f x = g x) -> forEach f l = forEach g l.
Proof.
  induction l as [| x r IH]; simpl; intros H; [reflexivity |].
  rewrite (H x (or_introl eq_refl)), IH; [reflexivity |].
  intros y Hy. apply H. right. exact Hy.
Qed.

Lemma warnings_forEach_In {A} (f : A -> M unit) (l : list A) (w : string) :
  In w (warnings (forEach f l)) -> exists x, In x l /\ In w (warnings (f x)).
Proof.
  induction l as [| x r IH]; simpl; [contradiction |].
  destruct (outcome (f x)) as [e | []] eqn:Hx.
  - rewrite (warnings_bind_fail _ _ e Hx). intros Hw. exists x. split; [left; reflexivity | exact Hw].
  - rewrite (warnings_bind_ok _ _ tt Hx). intros Hw. apply in_app_or in Hw.
    destruct Hw as [Hw | Hw].
    + exists x. split; [left; reflexivity | exact Hw].
    + destruct (IH Hw) as (y & Hy & Hwy). exists y. split; [right; exact Hy | exact Hwy].
Qed.

(** The warnings of a loop that stops at [x]: those of the elements before
    [x], then those of [x]. *)
Lemma warnings_forEach_fails_at {A} (f : A -> M unit) (pre post : list A) (x : A) (msg : string) :
  Forall (fun y => succeeds (f y)) pre ->
  failsWith (f x) msg ->
  warnings (forEach f (pre ++ x :: post))
  = (flat_map (fun y => warnings (f y)) pre ++ warnings (f x))%list.
Proof.
  intros Hpre Hx. induction Hpre as [| y r Hy _ IH]; simpl.
  - apply (warnings_bind_fail _ _ msg Hx).
  - rewrite (warnings_bind_ok _ _ tt Hy), IH, app_assoc. reflexivity.
Qed.

Lemma checkForAbsentEntities_silent r exists_ v :
  warnings (checkForAbsentEntities r exists_ v) = [].
Proof. unfold checkForAbsentEntities. apply warnings_when_throw. Qed.

Lemma checkForRelationshipErrors_silent E m s :
  warnings (checkForRelationshipErrors E m s) = [].
Proof.
  unfold checkForRelationshipErrors.
  destruct (getRelationshipQuantity m =? 0)%nat; [reflexivity |].
  apply forEach_silent. intros r. unfold checkRelationship.
  rewrite warnings_bind_silent; [apply warnings_validate |].
  intros _. apply checkForAbsentEntities_silent.
Qed.

Lemma checkForEnumErrors_validate E m :
  checkForEnumErrors E m = validate (firstRejection (EnumValidator E) (JDLObject.enums m)).
Proof.
  unfold checkForEnumErrors, getEnumQuantity.
  destruct (JDLObject.enums m) as [| e r] eqn:He; [reflexivity |].
  cbn [length Nat.eqb]. apply forEach_validate.
Qed.

Lemma checkDeploymentsErrors_validate E m :
  checkDeploymentsErrors E m
  = validate (firstRejection (DeploymentValidator E) (JDLObject.deployments m)).
Proof.
  unfold checkDeploymentsErrors, getDeploymentQuantity.
  destruct (JDLObject.deployments m) as [| d r] eqn:Hd; [reflexivity |].
  cbn [length Nat.eqb]. apply forEach_validate.
Qed.

Lemma checkOption_validate E s o : checkOption E s o = validate (optionError E s o).
Proof.
  unfold checkOption, optionError, checkForPaginationInAppWithCassandra.
  destruct (JDLOption.getType o);
    [destruct (UnaryOptionValidator E o) | destruct (BinaryOptionValidator E o)];
    simpl; try reflexivity;
    destruct (strictEq (databaseType s) (CASSANDRA E)
              && String.eqb (JDLOption.name o) (PAGINATION E)); reflexivity.
Qed.

Lemma checkForOptionErrors_validate E m s :
  checkForOptionErrors E m s
  = validate (firstRejection (optionError E s) (JDLObject.options m)).
Proof.
  unfold checkForOptionErrors, getOptionQuantity.
  destruct (JDLObject.options m) as [| o r] eqn:Ho; [reflexivity |].
  cbn [length Nat.eqb]. rewrite <- forEach_validate.
  apply forEach_ext. intros x _. apply checkOption_validate.
Qed.

Lemma later_phases_silent E m s :
  warnings (checkForRelationshipErrors E m s ;; checkForEnumErrors E m ;;
            checkDeploymentsErrors E m ;; checkForOptionErrors E m s) = [].
Proof.
  rewrite warnings_bind_silent; [apply checkForRelationshipErrors_silent |]. intros _.
  rewrite warnings_bind_silent; [rewrite checkForEnumErrors_validate; apply warnings_validate |].
  intros _.
  rewrite warnings_bind_silent;
    [rewrite checkDeploymentsErrors_validate; apply warnings_validate |].
  intros _. rewrite checkForOptionErrors_validate. apply warnings_validate.
Qed.

Lemma validation_warnings E m s :
  blueprintsUsed s = false ->
  warnings (validation E m s) = warnings (checkForEntityErrors E m s).
Proof.
  intros Hbp. rewrite (validation_phases _ _ _ Hbp). unfold checkAll.
  apply warnings_bind_silent. intros _. apply later_phases_silent.
Qed.

(** X1: [createValidator] throws exactly when no JDL object is passed, with
    the message [A JDL object must be passed to check for business errors.];
    the settings, blueprints included, have no say in it. *)
Theorem createValidator_requires_a_model (E : Collaborators) (o : option JDLObject.t)
    (s : Settings) (msg : string) :
  createValidator E o s = inl msg
  <-> o = None /\ msg = "A JDL object must be passed to check for business errors.".
Proof.
  unfold createValidator. destruct o as [m |].
  - destruct (blueprintsUsed s); split; intros H; try discriminate;
      destruct H as (H & _); discriminate.
  - split.
    + intros H. injection H as <-. split; reflexivity.
    + intros (_ & ->). reflexivity.
Qed.

(** X2: without blueprints, a model with at least one entity and settings
    whose database type is missing or the empty string make
    [checkForErrors()] fail with [Database type is required to validate
    entities.] before any entity is looked at: nothing is logged, whatever
    the entities and the collaborators are. *)
Theorem database_type_is_required (E : Collaborators) (m : JDLObject.t) (s : Settings) :
  blueprintsUsed s = false ->
  JDLObject.entities m <> [] ->
  databaseType s = None \/ databaseType s = Some EmptyString ->
  validation E m s = throw "Database type is required to validate entities.".
Proof.
  intros Hbp Hents Hdb. rewrite (validation_phases _ _ _ Hbp). unfold checkAll.
  assert (Hphase : checkForEntityErrors E m s
                   = throw "Database type is required to validate entities.").
  { unfold checkForEntityErrors, getEntityQuantity.
    destruct (JDLObject.entities m); [congruence |].
    destruct Hdb as [-> | ->]; reflexivity. }
  rewrite Hphase. reflexivity.
Qed.

Lemma database_type_is_required_witness :
  let m := JDLObject.mk [Sample.entity "Continue" [JDLField.mk "page" "WeirdType" []]]
             [Sample.oneToOne "A" "B"] [] [] [] in
  let s := mkSettings None (Some "monolith") (Some EmptyString) None (Some []) in
  blueprintsUsed s = false
  /\ JDLObject.entities m <> []
  /\ validation Sample.collaborators m s
     = ([], inl "Database type is required to validate entities.").
Proof.
  intros m s.
  assert (Hents : JDLObject.entities m <> []) by discriminate.
  exact (conj eq_refl (conj Hents
           (database_type_is_required Sample.collaborators m s eq_refl Hents
              (or_intror eq_refl)))).
Defined.

(** X3: without blueprints, everything [checkForErrors()] logs is logged by
    the entity phase: the relationship, enumeration, deployment and option
    phases never call the logger. *)
Theorem only_the_entity_phase_warns (E : Collaborators) (m : JDLObject.t) (s : Settings) :
  blueprintsUsed s = false ->
  warnings (validation E m s) = warnings (checkForEntityErrors E m s)
  /\ warnings (checkForRelationshipErrors E m s) = []
  /\ warnings (checkForEnumErrors E m) = []
  /\ warnings (checkDeploymentsErrors E m) = []
  /\ warnings (checkForOptionErrors E m s) = [].
Proof.
  intros Hbp. repeat split.
  - apply validation_warnings. exact Hbp.
  - apply checkForRelationshipErrors_silent.
  - rewrite checkForEnumErrors_validate. apply warnings_validate.
  - rewrite checkDeploymentsErrors_validate. apply warnings_validate.
  - rewrite checkForOptionErrors_validate. apply warnings_validate.
Qed.

Lemma only_the_entity_phase_warns_witness :
  let m := JDLObject.mk [Sample.entity "Valid" [JDLField.mk "catch" "String" []]]
             [Sample.oneToOne "Valid" "Other"] [] []
             [JDLOption.mk JDLOption.BINARY "pagination" (Some "pagination") [] []] in
  blueprintsUsed Sample.sqlMonolith = false
  /\ warnings (validation Sample.collaborators m Sample.sqlMonolith)
     = warnings (checkForEntityErrors Sample.collaborators m Sample.sqlMonolith)
  /\ warnings (validation Sample.collaborators m Sample.sqlMonolith)
     = ["The name 'catch' is a reserved keyword, so it will be prefixed with the value of 'jhiPrefix'."].
Proof.
  intros m.
  exact (conj eq_refl
           (conj (proj1 (only_the_entity_phase_warns Sample.collaborators m
                           Sample.sqlMonolith eq_refl)) eq_refl)).
Defined.

Lemma warnings_bind_In {A B} (m : M A) (k : A -> M B) (w : string) :
  In w (warnings (bind m k)) -> In w (warnings m) \/ exists a, In w (warnings (k a)).
Proof.
  destruct m as [ws [e | a]]; simpl; [left; assumption |].
  destruct (k a) as [w' r] eqn:Hk. simpl. intros Hw. apply in_app_or in Hw.
  destruct Hw as [Hw | Hw]; [left; exact Hw |].
  right. exists a. rewrite Hk. exact Hw.
Qed.

Lemma checkField_warnings_In E m s entityName filtering k f w :
  In w (warnings (checkField E m s entityName filtering (k, f))) ->
  isReservedFieldName E (JDLField.name f) = true /\ w = reservedFieldWarning f.
Proof.
  destruct (FieldValidator E f) as [msg |] eqn:Hshape.
  - unfold checkField. rewrite Hshape. simpl. contradiction.
  - rewrite (checkField_warnings _ _ _ _ _ _ _ Hshape).
    destruct (isReservedFieldName E (JDLField.name f)); simpl; [| contradiction].
    intros [<- | []]. split; reflexivity.
Qed.

(** X4: without blueprints, every message [checkForErrors()] logs is one of
    two: the table-name warning of an entity of the model whose table name is
    reserved, or the field-name warning of a field of such an entity whose
    name is reserved. *)
Theorem warnings_are_reserved_names (E : Collaborators) (m : JDLObject.t) (s : Settings)
    (w : string) :
  blueprintsUsed s = false ->
  In w (warnings (validation E m s)) ->
  (exists e, In e (JDLObject.entities m)
             /\ isReservedTableName E (JDLEntity.tableName e) (databaseType s) = true
             /\ w = "The table name '" ++ JDLEntity.tableName e
                    ++ "' is a reserved keyword, so it will be prefixed with the value of 'jhiPrefix'.")
  \/ (exists e k f, In e (JDLObject.entities m)
                    /\ In (k, f) (JDLEntity.fields e)
                    /\ isReservedFieldName E (JDLField.name f) = true
                    /\ w = "The name '" ++ JDLField.name f
                           ++ "' is a reserved keyword, so it will be prefixed with the value of 'jhiPrefix'.").
Proof.
  intros Hbp. rewrite (validation_warnings _ _ _ Hbp).
  unfold checkForEntityErrors.
  destruct (getEntityQuantity m =? 0)%nat; [simpl; contradiction |].
  destruct (negb (truthyString (databaseType s))); [simpl; contradiction |].
  intros Hw. apply warnings_forEach_In in Hw. destruct Hw as (e & He & Hw).
  unfold checkEntity in Hw.
  apply warnings_bind_In in Hw. destruct Hw as [Hw | (_ & Hw)].
  { rewrite warnings_validate in Hw. contradiction. }
  apply warnings_bind_In in Hw. destruct Hw as [Hw | (_ & Hw)].
  - left. exists e. split; [exact He |].
    destruct (isReservedTableName E (JDLEntity.tableName e) (databaseType s));
      simpl in Hw; [| contradiction].
    destruct Hw as [<- | []]. split; reflexivity.
  - right. unfold checkForFieldErrors in Hw. apply warnings_forEach_In in Hw.
    destruct Hw as ((k & f) & Hf & Hw). apply checkField_warnings_In in Hw.
    destruct Hw as (Hres & ->). exists e, k, f. repeat split; assumption.
Qed.

Lemma warnings_are_reserved_names_witness :
  let valid := Sample.entity "Valid" [JDLField.mk "catch" "String" []] in
  let m := JDLObject.mk [valid] [] [] [] [] in
  let w := "The name 'catch' is a reserved keyword, so it will be prefixed with the value of 'jhiPrefix'." in
  blueprintsUsed Sample.sqlMonolith = false
  /\ In w (warnings (validation Sample.collaborators m Sample.sqlMonolith))
  /\ ((exists e, In e (JDLObject.entities m)
                 /\ isReservedTableName Sample.collaborators (JDLEntity.tableName e)
                      (databaseType Sample.sqlMonolith) = true
                 /\ w = "The table name '" ++ JDLEntity.tableName e
                        ++ "' is a reserved keyword, so it will be prefixed with the value of 'jhiPrefix'.")
      \/ (exists e k f, In e (JDLObject.entities m)
                        /\ In (k, f) (JDLEntity.fields e)
                        /\ isReservedFieldName Sample.collaborators (JDLField.name f) = true
                        /\ w = "The name '" ++ JDLField.name f
                               ++ "' is a reserved keyword, so it will be prefixed with the value of 'jhiPrefix'.")).
Proof.
  intros valid m w.
  assert (Hin : In w (warnings (validation Sample.collaborators m Sample.sqlMonolith)))
    by (left; reflexivity).
  exact (conj eq_refl (conj Hin
           (warnings_are_reserved_names Sample.collaborators m Sample.sqlMonolith w
              eq_refl Hin))).
Defined.

(** X5: without blueprints the five phases run in the order entities,
    relationships, enumerations, deployments, options, and the error of
    [checkForErrors()] is the error of the first phase that fails; the call
    succeeds iff all five phases do. *)
Theorem phases_fail_in_order (E : Collaborators) (m : JDLObject.t) (s : Settings) :
  blueprintsUsed s = false ->
  (forall msg, failsWith (checkForEntityErrors E m s) msg -> failsWith (validation E m s) msg)
  /\ (succeeds (checkForEntityErrors E m s) ->
      forall msg, failsWith (checkForRelationshipErrors E m s) msg ->
                  failsWith (validation E m s) msg)
  /\ (succeeds (checkForEntityErrors E m s) ->
      succeeds (checkForRelationshipErrors E m s) ->
      forall msg, failsWith (checkForEnumErrors E m) msg -> failsWith (validation E m s) msg)
  /\ (succeeds (checkForEntityErrors E m s) ->
      succeeds (checkForRelationshipErrors E m s) ->
      succeeds (checkForEnumErrors E m) ->
      forall msg, failsWith (checkDeploymentsErrors E m) msg -> failsWith (validation E m s) msg)
  /\ (succeeds (checkForEntityErrors E m s) ->
      succeeds (checkForRelationshipErrors E m s) ->
      succeeds (checkForEnumErrors E m) ->
      succeeds (checkDeploymentsErrors E m) ->
      forall msg, failsWith (checkForOptionErrors E m s) msg -> failsWith (validation E m s) msg)
  /\ (succeeds (validation E m s)
      <-> succeeds (checkForEntityErrors E m s)
          /\ succeeds (checkForRelationshipErrors E m s)
          /\ succeeds (checkForEnumErrors E m)
          /\ succeeds (checkDeploymentsErrors E m)
          /\ succeeds (checkForOptionErrors E m s)).
Proof.
  intros Hbp. rewrite (validation_phases _ _ _ Hbp). unfold checkAll.
  split; [| split; [| split; [| split; [| split]]]].
  - intros msg H. apply failsWith_bind_first. exact H.
  - intros H1 msg H. apply failsWith_bind_later; [exact H1 |].
    apply failsWith_bind_first. exact H.
  - intros H1 H2 msg H. do 2 (apply failsWith_bind_later; [assumption |]).
    apply failsWith_bind_first. exact H.
  - intros H1 H2 H3 msg H. do 3 (apply failsWith_bind_later; [assumption |]).
    apply failsWith_bind_first. exact H.
  - intros H1 H2 H3 H4 msg H. do 4 (apply failsWith_bind_later; [assumption |]). exact H.
  - split.
    + unfold succeeds. intros H.
      destruct (outcome (checkForEntityErrors E m s)) as [e | []] eqn:H1;
        [rewrite (outcome_bind_fail _ _ e H1) in H; discriminate |].
      rewrite (outcome_bind_ok _ _ tt H1) in H.
      destruct (outcome (checkForRelationshipErrors E m s)) as [e | []] eqn:H2;
        [rewrite (outcome_bind_fail _ _ e H2) in H; discriminate |].
      rewrite (outcome_bind_ok _ _ tt H2) in H.
      destruct (outcome (checkForEnumErrors E m)) as [e | []] eqn:H3;
        [rewrite (outcome_bind_fail _ _ e H3) in H; discriminate |].
      rewrite (outcome_bind_ok _ _ tt H3) in H.
      destruct (outcome (checkDeploymentsErrors E m)) as [e | []] eqn:H4;
        [rewrite (outcome_bind_fail _ _ e H4) in H; discriminate |].
      rewrite (outcome_bind_ok _ _ tt H4) in H.
      repeat split; assumption.
    + intros (H1 & H2 & H3 & H4 & H5). repeat (apply succeeds_bind; [assumption |]).
      exact H5.
Qed.

Lemma phases_fail_in_order_witness :
  let m := JDLObject.mk [Sample.entity "Valid" []] [Sample.oneToOne "Valid" "Other"] [] []
             [JDLOption.mk JDLOption.BINARY "pagination" (Some "pagination") [] []] in
  let cassandra := mkSettings None (Some "monolith") (Some "cassandra") None None in
  blueprintsUsed cassandra = false
  /\ failsWith (checkForOptionErrors Sample.collaborators m cassandra)
       "Pagination isn't allowed when the application uses Cassandra."
  /\ failsWith (validation Sample.collaborators m cassandra)
       "In the relationship between Valid and Other, Other is not declared.".
Proof.
  intros m cassandra.
  destruct (phases_fail_in_order Sample.collaborators m cassandra eq_refl)
    as (_ & Hrel & _).
  exact (conj eq_refl (conj eq_refl (Hrel eq_refl _ eq_refl))).
Defined.

(** *** The first node a check rejects *)

Lemma firstRejection_None {A} (v : A -> option string) (l : list A) :
  firstRejection v l = None <-> Forall (fun x => v x = None) l.
Proof.
  induction l as [| x r IH]; simpl.
  - split; [constructor | reflexivity].
  - destruct (v x) as [msg |] eqn:Hx.
    + split; [discriminate |]. intros H. inversion H; subst. congruence.
    + rewrite IH. split; [intros H; constructor; assumption |].
      intros H. inversion H; assumption.
Qed.

Lemma firstRejection_at {A} (v : A -> option string) (pre post : list A) (x : A) (msg : string) :
  Forall (fun y => v y = None) pre ->
  v x = Some msg ->
  firstRejection v (pre ++ x :: post) = Some msg.
Proof.
  intros Hpre Hx. induction Hpre as [| y r Hy _ IH]; simpl.
  - rewrite Hx. reflexivity.
  - rewrite Hy. exact IH.
Qed.

Lemma succeeds_validate (r : option string) : succeeds (validate r) <-> r = None.
Proof. destruct r; simpl; split; intros H; try reflexivity; discriminate. Qed.

(** X6: the enumeration phase and the deployment phase are their shape
    validator run over the nodes in order: the phase succeeds iff the
    validator accepts every node, and it fails with the message the validator
    throws on the first node it rejects. *)
Theorem shape_phases_report_first_rejection (E : Collaborators) (m : JDLObject.t) :
  (succeeds (checkForEnumErrors E m)
   <-> Forall (fun e => EnumValidator E e = None) (JDLObject.enums m))
  /\ (forall pre e post msg,
        JDLObject.enums m = (pre ++ e :: post)%list ->
        Forall (fun e' => EnumValidator E e' = None) pre ->
        EnumValidator E e = Some msg ->
        checkForEnumErrors E m = throw msg)
  /\ (succeeds (checkDeploymentsErrors E m)
      <-> Forall (fun d => DeploymentValidator E d = None) (JDLObject.deployments m))
  /\ (forall pre d post msg,
        JDLObject.deployments m = (pre ++ d :: post)%list ->
        Forall (fun d' => DeploymentValidator E d' = None) pre ->
        DeploymentValidator E d = Some msg ->
        checkDeploymentsErrors E m = throw msg).
Proof.
  repeat split.
  - rewrite checkForEnumErrors_validate, succeeds_validate. apply firstRejection_None.
  - rewrite checkForEnumErrors_validate, succeeds_validate. apply firstRejection_None.
  - intros pre e post msg Hm Hpre He.
    rewrite checkForEnumErrors_validate, Hm, (firstRejection_at _ _ _ _ _ Hpre He).
    reflexivity.
  - rewrite checkDeploymentsErrors_validate, succeeds_validate. apply firstRejection_None.
  - rewrite checkDeploymentsErrors_validate, succeeds_validate. apply firstRejection_None.
  - intros pre d post msg Hm Hpre Hd.
    rewrite checkDeploymentsErrors_validate, Hm, (firstRejection_at _ _ _ _ _ Hpre Hd).
    reflexivity.
Qed.

(** X7: the option phase hands each option to the shape validator of its
    kind, and to it alone, before the Cassandra rule: when the options before
    [o] have passed and the validator of the kind of [o] rejects it, the
    phase fails with that validator's message, also for a Pagination option
    under Cassandra. *)
Theorem option_shape_comes_first (E : Collaborators) (m : JDLObject.t) (s : Settings)
    (pre : list JDLOption.t) (o : JDLOption.t) (post : list JDLOption.t) (msg : string) :
  JDLObject.options m = (pre ++ o :: post)%list ->
  Forall (fun o' => succeeds (checkOption E s o')) pre ->
  match JDLOption.getType o with
  | JDLOption.UNARY => UnaryOptionValidator E o
  | JDLOption.BINARY => BinaryOptionValidator E o
  end = Some msg ->
  checkForOptionErrors E m s = throw msg.
Proof.
  intros Hm Hpre Ho. rewrite checkForOptionErrors_validate, Hm.
  rewrite (firstRejection_at _ _ _ _ msg); [reflexivity | |].
  - apply Forall_impl with (2 := Hpre). intros o' Ho'.
    rewrite checkOption_validate in Ho'. apply succeeds_validate. exact Ho'.
  - unfold optionError. rewrite Ho. reflexivity.
Qed.

Lemma option_shape_comes_first_witness :
  let strict := mkCollaborators "sql" "cassandra" "gateway" "skipUserManagement" "pagination"
                  (fun _ => false) (fun _ => false) (fun _ _ => false) (fun _ => false)
                  (fun _ _ => true) (fun _ _ _ => true)
                  (fun _ => None) (fun _ => None) (fun _ _ => None) (fun _ => None)
                  (fun _ => None) (fun _ => None)
                  (fun o => match JDLOption.value o with
                            | None => Some "The binary option must have a value."
                            | Some _ => None
                            end) in
  let dto := JDLOption.mk JDLOption.BINARY "dto" (Some "mapstruct") [] [] in
  let pagination := JDLOption.mk JDLOption.BINARY "pagination" None [] [] in
  let m := JDLObject.mk [] [] [] [] [dto; pagination] in
  let cassandra := mkSettings None None (Some "cassandra") None None in
  JDLObject.options m = [dto; pagination]
  /\ Forall (fun o' => succeeds (checkOption strict cassandra o')) [dto]
  /\ checkForOptionErrors strict m cassandra = throw "The binary option must have a value.".
Proof.
  intros strict dto pagination m cassandra.
  assert (Hpre : Forall (fun o' => succeeds (checkOption strict cassandra o')) [dto])
    by (repeat constructor).
  exact (conj eq_refl (conj Hpre
           (option_shape_comes_first strict m cassandra [dto] pagination []
              "The binary option must have a value." eq_refl Hpre eq_refl))).
Defined.

(** *** Validations, table names and the warnings before a failure *)

Lemma checkForValidationErrors_validate E f isAnEnum :
  checkForValidationErrors E f isAnEnum
  = validate (firstRejection (validationError E f isAnEnum) (JDLField.validations f)).
Proof.
  unfold checkForValidationErrors. rewrite <- forEach_validate.
  apply forEach_ext. intros v _. unfold validationError.
  destruct (ValidationValidator E v); [reflexivity |].
  rewrite validate_None, bind_ret_l.
  destruct (hasValidation E (JDLField.type f) (JDLValidation.name v) isAnEnum); reflexivity.
Qed.

(** X8: when the validation comes to a field whose shape and type are
    accepted and whose name is not stopped by the pagination rule, and the
    validations before [v] are accepted and supported, a validation [v] of
    accepted shape that the support matrix does not hold for the field's
    type (looked up with the flag that tells whether the type is a declared
    enumeration) makes [checkForErrors()] fail with
    [The validation '<name>' isn't supported for the type '<type>'.] *)
Theorem unsupported_validation_is_fatal (E : Collaborators) (m : JDLObject.t) (s : Settings)
    (pre : list JDLEntity.t) (e : JDLEntity.t) (post : list JDLEntity.t)
    (fpre : list (string * JDLField.t)) (k : string) (f : JDLField.t)
    (fpost : list (string * JDLField.t))
    (vpre : list JDLValidation.t) (v : JDLValidation.t) (vpost : list JDLValidation.t) :
  entityReached E m s pre e post ->
  fieldReached E m s e fpre k f fpost ->
  FieldValidator E f = None ->
  strictEq (databaseType s) (SQL E) && isReservedPaginationWords E (JDLField.name f) = false ->
  hasEnum m (JDLField.type f) || typeUniverseAccepts E s (JDLField.type f) = true ->
  JDLField.validations f = (vpre ++ v :: vpost)%list ->
  Forall (fun v' => ValidationValidator E v' = None
                    /\ hasValidation E (JDLField.type f) (JDLValidation.name v')
                         (hasEnum m (JDLField.type f)) = true) vpre ->
  ValidationValidator E v = None ->
  hasValidation E (JDLField.type f) (JDLValidation.name v) (hasEnum m (JDLField.type f)) = false ->
  failsWith (validation E m s)
    ("The validation '" ++ JDLValidation.name v ++ "' isn't supported for the type '"
     ++ JDLField.type f ++ "'.").
Proof.
  intros Hent Hfield Hshape Hpag Hty Hvals Hvpre Hv Hunsupported.
  apply (field_failure _ _ _ _ _ _ _ _ _ _ _ Hent Hfield).
  unfold failsWith. rewrite checkField_continues; try assumption.
  2: { rewrite getTypeCheckingFunction_spec. exact Hty. }
  rewrite checkForValidationErrors_validate, Hvals.
  rewrite (firstRejection_at _ _ _ _
             ("The validation '" ++ JDLValidation.name v ++ "' isn't supported for the type '"
              ++ JDLField.type f ++ "'.")); [reflexivity | |].
  - apply Forall_impl with (2 := Hvpre). intros v' (Hs & Hh).
    unfold validationError. rewrite Hs, Hh. reflexivity.
  - unfold validationError. rewrite Hv, Hunsupported. reflexivity.
Qed.

Lemma unsupported_validation_is_fatal_witness :
  let required := JDLValidation.mk "required" None in
  let min := JDLValidation.mk "min" (Some "42") in
  let f := JDLField.mk "validField" "String" [required; min] in
  let valid := Sample.entity "Valid" [f] in
  let m := JDLObject.mk [valid] [] [] [] [] in
  entityReached Sample.collaborators m Sample.sqlMonolith [] valid []
  /\ fieldReached Sample.collaborators m Sample.sqlMonolith valid [] "validField" f []
  /\ failsWith (validation Sample.collaborators m Sample.sqlMonolith)
       "The validation 'min' isn't supported for the type 'String'.".
Proof.
  intros required min f valid m.
  assert (He : entityReached Sample.collaborators m Sample.sqlMonolith [] valid []).
  { repeat split. constructor. }
  assert (Hf : fieldReached Sample.collaborators m Sample.sqlMonolith valid [] "validField" f []).
  { repeat split. constructor. }
  assert (Hvpre : Forall (fun v' => ValidationValidator Sample.collaborators v' = None
                            /\ hasValidation Sample.collaborators (JDLField.type f)
                                 (JDLValidation.name v') (hasEnum m (JDLField.type f)) = true)
                    [required]).
  { repeat constructor. }
  exact (conj He (conj Hf
           (unsupported_validation_is_fatal Sample.collaborators m Sample.sqlMonolith
              [] valid [] [] "validField" f [] [required] min []
              He Hf eq_refl eq_refl eq_refl eq_refl Hvpre eq_refl eq_refl))).
Defined.

(** X9: a reserved table name is advisory. For an entity whose class name is
    accepted and whose table name is reserved for the database type, the
    entity check logs [The table name '<tableName>' is a reserved keyword, so
    it will be prefixed with the value of 'jhiPrefix'.] first, then what the
    check of its fields logs, and it ends as the check of its fields does. *)
Theorem reserved_table_name_is_advisory (E : Collaborators) (m : JDLObject.t) (s : Settings)
    (e : JDLEntity.t) :
  EntityValidator E e = None ->
  isReservedTableName E (JDLEntity.tableName e) (databaseType s) = true ->
  warnings (checkEntity E m s e)
  = ("The table name '" ++ JDLEntity.tableName e
     ++ "' is a reserved keyword, so it will be prefixed with the value of 'jhiPrefix'.")
    :: warnings (checkForFieldErrors E m s (JDLEntity.name e) (JDLEntity.fields e))
  /\ outcome (checkEntity E m s e)
     = outcome (checkForFieldErrors E m s (JDLEntity.name e) (JDLEntity.fields e)).
Proof.
  intros Hshape Hres. unfold checkEntity.
  rewrite Hshape, validate_None, bind_ret_l, Hres, when_true.
  split.
  - rewrite (warnings_bind_ok _ _ tt); reflexivity.
  - rewrite (outcome_bind_ok _ _ tt); reflexivity.
Qed.

Lemma reserved_table_name_is_advisory_witness :
  let e := JDLEntity.mk "Valid" "continue" [("catch", JDLField.mk "catch" "String" [])] in
  let m := JDLObject.mk [e] [] [] [] [] in
  EntityValidator Sample.collaborators e = None
  /\ isReservedTableName Sample.collaborators "continue" (Some "sql") = true
  /\ warnings (checkEntity Sample.collaborators m Sample.sqlMonolith e)
     = ["The table name 'continue' is a reserved keyword, so it will be prefixed with the value of 'jhiPrefix'.";
        "The name 'catch' is a reserved keyword, so it will be prefixed with the value of 'jhiPrefix'."]
  /\ outcome (checkEntity Sample.collaborators m Sample.sqlMonolith e) = inr tt.
Proof.
  intros e m.
  destruct (reserved_table_name_is_advisory Sample.collaborators m Sample.sqlMonolith e
              eq_refl eq_refl) as (Hlog & Hend).
  exact (conj eq_refl (conj eq_refl (conj Hlog Hend))).
Defined.

(** X10: the warnings of a failing validation stop at the failure. When the
    validation comes to an entity whose check fails, [checkForErrors()] has
    logged the warnings of the entities before it, in order, then the
    warnings that entity logged before it failed, and nothing of what comes
    after. *)
Theorem warnings_stop_at_the_failure (E : Collaborators) (m : JDLObject.t) (s : Settings)
    (pre : list JDLEntity.t) (e : JDLEntity.t) (post : list JDLEntity.t) (msg : string) :
  entityReached E m s pre e post ->
  failsWith (checkEntity E m s e) msg ->
  validation E m s
  = ((flat_map (fun e' => warnings (checkEntity E m s e')) pre
      ++ warnings (checkEntity E m s e))%list, inl msg).
Proof.
  intros Hreach He.
  pose proof (entity_failure _ _ _ _ _ _ _ Hreach He) as Hout.
  destruct Hreach as (Hbp & Hdb & Hents & Hpre).
  pose proof (validation_warnings E m s Hbp) as Hw.
  unfold failsWith, outcome in Hout. unfold warnings in Hw at 1.
  destruct (validation E m s) as [w r]. simpl in Hout, Hw. subst r w. f_equal.
  unfold checkForEntityErrors, getEntityQuantity.
  rewrite Hents, length_middle_eqb, Hdb. simpl negb. cbv iota.
  apply (warnings_forEach_fails_at _ _ _ _ msg); assumption.
Qed.

Lemma warnings_stop_at_the_failure_witness :
  let first := Sample.entity "First" [JDLField.mk "catch" "String" []] in
  let second := Sample.entity "Second" [JDLField.mk "class" "String" [];
                                         JDLField.mk "amount" "WeirdType" [];
                                         JDLField.mk "continue" "String" []] in
  let third := Sample.entity "Select" [] in
  let m := JDLObject.mk [first; second; third] [] [] [] [] in
  entityReached Sample.collaborators m Sample.sqlMonolith [first] second [third]
  /\ validation Sample.collaborators m Sample.sqlMonolith
     = (["The name 'catch' is a reserved keyword, so it will be prefixed with the value of 'jhiPrefix'.";
         "The name 'class' is a reserved keyword, so it will be prefixed with the value of 'jhiPrefix'."],
        inl "The type 'WeirdType' is an unknown field type for field 'amount' of entity 'Second'.").
Proof.
  intros first second third m.
  assert (He : entityReached Sample.collaborators m Sample.sqlMonolith [first] second [third]).
  { repeat split. repeat constructor. }
  exact (conj He
           (warnings_stop_at_the_failure Sample.collaborators m Sample.sqlMonolith
              [first] second [third] _ He eq_refl)).
Defined.

(** *** What the checks do not depend on *)

(** X11: the skip-user-management flag matters to the absent-entities check
    only for a [to] endpoint that is not declared and is a user-management
    entity; for every other relationship the check does the same whatever
    the flag is. *)
Theorem skip_flag_only_for_user_destination (r : JDLRelationship.t)
    (exists_ : string -> bool) (v v' : JsFlag) :
  exists_ (JDLRelationship.to r) = true
  \/ isUserManagementEntity (JDLRelationship.to r) = false ->
  checkForAbsentEntities r exists_ v = checkForAbsentEntities r exists_ v'.
Proof.
  intros H. unfold checkForAbsentEntities. rewrite !absentEntities_cases.
  unfold toReported. destruct H as [-> | ->]; reflexivity.
Qed.

Lemma skip_flag_only_for_user_destination_witness :
  let r := Sample.oneToOne "Source" "Other" in
  isUserManagementEntity "Other" = false
  /\ checkForAbsentEntities r (doesEntityExist Sample.sourceToUser) FlagUndefined
     = checkForAbsentEntities r (doesEntityExist Sample.sourceToUser) (FlagBool true)
  /\ checkForAbsentEntities r (doesEntityExist Sample.sourceToUser) FlagUndefined
     = throw "In the relationship between Source and Other, Other is not declared.".
Proof.
  intros r.
  exact (conj eq_refl
           (conj (skip_flag_only_for_user_destination r (doesEntityExist Sample.sourceToUser)
                    FlagUndefined (FlagBool true) (or_intror eq_refl))
                 eq_refl)).
Defined.

Lemma lowerChar_idempotent (c : ascii) : lowerChar (lowerChar c) = lowerChar c.
Proof. destruct c as [[] [] [] [] [] [] [] []]; reflexivity. Qed.

Lemma toLowerCase_idempotent (s : string) : toLowerCase (toLowerCase s) = toLowerCase s.
Proof.
  induction s as [| c r IH]; simpl; [reflexivity |].
  rewrite lowerChar_idempotent, IH. reflexivity.
Qed.

(** X12: [isUserManagementEntity] does not look at the case of the letters:
    a name and its lower-case form get the same answer, and so do two names
    that differ in case only. *)
Theorem user_management_entity_ignores_case (a b : string) :
  isUserManagementEntity (toLowerCase a) = isUserManagementEntity a
  /\ (toLowerCase a = toLowerCase b -> isUserManagementEntity a = isUserManagementEntity b).
Proof.
  unfold isUserManagementEntity. split.
  - rewrite toLowerCase_idempotent. reflexivity.
  - intros ->. reflexivity.
Qed.

Lemma checkForFieldErrors_gateway E m s g entityName fields :
  strictEq (applicationType s) (GATEWAY E) = true ->
  checkForFieldErrors (withGetIsType g E) m s entityName fields
  = checkForFieldErrors E m s entityName fields.
Proof.
  intros Hgw. unfold checkForFieldErrors. apply forEach_ext. intros [k f] _.
  unfold checkField, getTypeCheckingFunction. cbn [GATEWAY withGetIsType].
  rewrite Hgw. reflexivity.
Qed.

Lemma checkForFieldErrors_not_filtering E m s p entityName fields :
  strictEq (databaseType s) (SQL E) = false ->
  checkForFieldErrors (withPaginationWords p E) m s entityName fields
  = checkForFieldErrors E m s entityName fields.
Proof.
  intros Hsql. unfold checkForFieldErrors. cbn [SQL withPaginationWords].
  rewrite Hsql. apply forEach_ext. intros [k f] _. reflexivity.
Qed.

(** The validation of two collaborators that agree on everything but what
    the field checks do not read. *)
Lemma validation_same_fields E E' m s :
  (forall entityName fields,
     checkForFieldErrors E' m s entityName fields = checkForFieldErrors E m s entityName fields) ->
  (forall e, checkEntity E' m s e
             = (validate (EntityValidator E e) ;;
                when (isReservedTableName E (JDLEntity.tableName e) (databaseType s))
                  (warn (reservedTableWarning e)) ;;
                checkForFieldErrors E' m s (JDLEntity.name e) (JDLEntity.fields e))) ->
  checkForRelationshipErrors E' m s = checkForRelationshipErrors E m s ->
  checkForEnumErrors E' m = checkForEnumErrors E m ->
  checkDeploymentsErrors E' m = checkDeploymentsErrors E m ->
  checkForOptionErrors E' m s = checkForOptionErrors E m s ->
  validation E' m s = validation E m s.
Proof.
  intros Hfields Hentity Hrel Henum Hdep Hopt.
  unfold validation, createValidator. destruct (blueprintsUsed s); [reflexivity |].
  cbn [checkForErrors]. unfold checkAll. rewrite Hrel, Henum, Hdep, Hopt.
  replace (checkForEntityErrors E' m s) with (checkForEntityErrors E m s); [reflexivity |].
  unfold checkForEntityErrors.
  destruct (getEntityQuantity m =? 0)%nat; [reflexivity |].
  destruct (negb (truthyString (databaseType s))); [reflexivity |].
  apply forEach_ext. intros e _. rewrite Hentity, Hfields. reflexivity.
Qed.

(** X13: on a gateway the type universe of the database type is never
    consulted: [checkForErrors()] logs and ends the same whatever
    [fieldTypes.getIsType] answers. *)
Theorem gateway_ignores_type_universe (E : Collaborators) (m : JDLObject.t) (s : Settings)
    (g : option string -> string -> bool) :
  applicationType s = Some (GATEWAY E) ->
  validation (withGetIsType g E) m s = validation E m s.
Proof.
  intros Hgw. apply validation_same_fields; try reflexivity.
  intros entityName fields. apply checkForFieldErrors_gateway.
  rewrite Hgw. apply strictEq_same.
Qed.

Lemma gateway_ignores_type_universe_witness :
  let m := JDLObject.mk [Sample.entity "Valid" [JDLField.mk "validField" "UNKNOWN-TYPE" []]]
             [] [] [] [] in
  let gateway := mkSettings None (Some "gateway") (Some "sql") None None in
  applicationType gateway = Some (GATEWAY Sample.collaborators)
  /\ validation (withGetIsType (fun _ _ => false) Sample.collaborators) m gateway
     = validation Sample.collaborators m gateway
  /\ validation Sample.collaborators m gateway = ([], inr tt).
Proof.
  intros m gateway.
  exact (conj eq_refl
           (conj (gateway_ignores_type_universe Sample.collaborators m gateway
                    (fun _ _ => false) eq_refl)
                 eq_refl)).
Defined.

(** X14: the pagination words are consulted with the SQL database type only:
    with any other database type, or none, [checkForErrors()] logs and ends
    the same whatever [isReservedPaginationWords] answers. *)
Theorem pagination_words_only_with_sql (E : Collaborators) (m : JDLObject.t) (s : Settings)
    (p : string -> bool) :
  databaseType s <> Some (SQL E) ->
  validation (withPaginationWords p E) m s = validation E m s.
Proof.
  intros Hdb. apply validation_same_fields; try reflexivity.
  intros entityName fields. apply checkForFieldErrors_not_filtering.
  apply strictEq_other. exact Hdb.
Qed.

Lemma pagination_words_only_with_sql_witness :
  let m := JDLObject.mk [Sample.entity "Paged" [JDLField.mk "page" "String" []]] [] [] [] [] in
  let cassandra := mkSettings None (Some "monolith") (Some "cassandra") None None in
  databaseType cassandra <> Some (SQL Sample.collaborators)
  /\ validation (withPaginationWords (fun _ => true) Sample.collaborators) m cassandra
     = validation Sample.collaborators m cassandra
  /\ validation Sample.collaborators m cassandra = ([], inr tt).
Proof.
  intros m cassandra.
  assert (Hdb : databaseType cassandra <> Some (SQL Sample.collaborators)) by discriminate.
  exact (conj Hdb
           (conj (pagination_words_only_with_sql Sample.collaborators m cassandra
                    (fun _ => true) Hdb)
                 eq_refl)).
Defined.

(** ** Locating a generator *)

Lemma splitOn_none (sep : ascii) (s : string) :
  occurs sep s = false -> splitOn sep s = [s].
Proof.
  induction s as [| c r IH]; simpl; [reflexivity |].
  intros H. apply orb_false_iff in H. destruct H as (Hc & Hr).
  rewrite Hc, (IH Hr). reflexivity.
Qed.

Lemma splitOn_app (sep : ascii) (p q : string) :
  occurs sep p = false -> splitOn sep (p ++ String sep q) = p :: splitOn sep q.
Proof.
  induction p as [| c r IH]; simpl.
  - intros _. rewrite Ascii.eqb_refl. reflexivity.
  - intros H. apply orb_false_iff in H. destruct H as (Hc & Hr).
    rewrite Hc, (IH Hr). reflexivity.
Qed.

Lemma splitOn_pieces (sep : ascii) (s : string) :
  Forall (fun w => occurs sep w = false) (splitOn sep s).
Proof.
  induction s as [| c r IH]; simpl.
  - repeat constructor.
  - destruct (Ascii.eqb c sep) eqn:Hc.
    + constructor; [reflexivity | exact IH].
    + destruct (splitOn sep r) as [| w ws].
      * repeat constructor. simpl. rewrite Hc. reflexivity.
      * inversion IH; subst. constructor; [| assumption].
        simpl. rewrite Hc. assumption.
Qed.

Lemma splitOn_nonempty (sep : ascii) (s : string) : splitOn sep s <> [].
Proof.
  destruct s as [| c r]; simpl; [discriminate |].
  destruct (Ascii.eqb c sep); [discriminate |].
  destruct (splitOn sep r); discriminate.
Qed.

(** The pieces put together again, with the separator between them, are the
    string that was split. *)
Lemma join_splitOn (sep : ascii) (s : string) :
  join (String sep EmptyString) (splitOn sep s) = s.
Proof.
  induction s as [| c r IH]; simpl; [reflexivity |].
  pose proof (splitOn_nonempty sep r) as Hne.
  destruct (splitOn sep r) as [| w ws]; [congruence |].
  destruct (Ascii.eqb c sep) eqn:Hc.
  - apply Ascii.eqb_eq in Hc. subst c.
    change (join (String sep EmptyString) (EmptyString :: w :: ws))
      with (EmptyString ++ String sep EmptyString ++ join (String sep EmptyString) (w :: ws)).
    rewrite IH. reflexivity.
  - destruct ws as [| w' ws].
    + simpl in IH. subst r. reflexivity.
    + change (join (String sep EmptyString) (String c w :: w' :: ws))
        with (String c (w ++ String sep EmptyString ++ join (String sep EmptyString) (w' :: ws))).
      change (join (String sep EmptyString) (w :: w' :: ws))
        with (w ++ String sep EmptyString ++ join (String sep EmptyString) (w' :: ws)) in IH.
      rewrite IH. reflexivity.
Qed.

(** X15: when no generator is passed and the environment's lookup throws,
    [locateGenerator] answers a name read off the namespace: the whole
    namespace when it holds no colon, and otherwise the piece after the first
    colon, up to the second colon if there is one (what follows a second
    colon is dropped). *)
Theorem locateGenerator_falls_back_on_the_namespace (G : Type)
    (requireNamespace : string -> option (option G)) (namespace : string) :
  requireNamespace namespace = None ->
  (occurs ":" namespace = false ->
   locateGenerator None requireNamespace namespace = LocatedName namespace)
  /\ (forall p q, namespace = p ++ ":" ++ q ->
                  occurs ":" p = false -> occurs ":" q = false ->
                  locateGenerator None requireNamespace namespace = LocatedName q)
  /\ (forall p q rest, namespace = p ++ ":" ++ q ++ ":" ++ rest ->
                       occurs ":" p = false -> occurs ":" q = false ->
                       locateGenerator None requireNamespace namespace = LocatedName q).
Proof.
  intros Hthrows. unfold locateGenerator, split. rewrite Hthrows. repeat split.
  - intros Hnone. rewrite (splitOn_none _ _ Hnone). reflexivity.
  - intros p q -> Hp Hq. simpl append.
    rewrite (splitOn_app _ _ _ Hp), (splitOn_none _ _ Hq). reflexivity.
  - intros p q rest -> Hp Hq. simpl append.
    rewrite (splitOn_app _ _ _ Hp), (splitOn_app _ _ _ Hq). reflexivity.
Qed.

Lemma locateGenerator_falls_back_on_the_namespace_witness :
  let none : string -> option (option nat) := fun _ => None in
  none "jhipster:app" = None
  /\ locateGenerator None none "entity" = LocatedName "entity"
  /\ locateGenerator None none "jhipster:app" = LocatedName "app"
  /\ locateGenerator None none "jhipster:app:bootstrap" = LocatedName "app".
Proof.
  intros none.
  destruct (locateGenerator_falls_back_on_the_namespace nat none "entity" eq_refl)
    as (Hwhole & _).
  destruct (locateGenerator_falls_back_on_the_namespace nat none "jhipster:app" eq_refl)
    as (_ & Hsecond & _).
  destruct (locateGenerator_falls_back_on_the_namespace nat none "jhipster:app:bootstrap"
              eq_refl) as (_ & _ & Hdropped).
  exact (conj eq_refl
           (conj (Hwhole eq_refl)
              (conj (Hsecond "jhipster" "app" eq_refl eq_refl eq_refl)
                 (Hdropped "jhipster" "app" "bootstrap" eq_refl eq_refl eq_refl)))).
Defined.

(** X16: [locateGenerator] answers a name only as a last resort, when no
    generator is passed and the environment's lookup throws, and the name it
    answers never holds a colon. *)
Theorem locateGenerator_name_is_last_resort (G : Type) (generator : option G)
    (requireNamespace : string -> option (option G)) (namespace name : string) :
  locateGenerator generator requireNamespace namespace = LocatedName name ->
  generator = None /\ requireNamespace namespace = None /\ occurs ":" name = false.
Proof.
  unfold locateGenerator, split.
  destruct generator as [g |]; [discriminate |].
  destruct (requireNamespace namespace) as [[g |] |]; try discriminate.
  intros H. injection H as <-. repeat split.
  pose proof (splitOn_pieces ":" namespace) as Hpieces.
  destruct (splitOn ":" namespace) as [| a [| b rest]]; simpl.
  - reflexivity.
  - inversion Hpieces; assumption.
  - inversion Hpieces as [| ? ? _ Hrest]; subst. inversion Hrest; assumption.
Qed.

Lemma locateGenerator_name_is_last_resort_witness :
  let none : string -> option (option nat) := fun _ => None in
  locateGenerator None none "jhipster:app:bootstrap" = LocatedName "app"
  /\ (@None nat = None /\ none "jhipster:app:bootstrap" = None /\ occurs ":" "app" = false).
Proof.
  intros none.
  exact (conj eq_refl
           (locateGenerator_name_is_last_resort nat None none "jhipster:app:bootstrap" "app"
              eq_refl)).
Defined.

(** ** What a model that passes the validation is like *)

Lemma succeeds_bind_inv (m1 m2 : M unit) :
  succeeds (m1 ;; m2) -> succeeds m1 /\ succeeds m2.
Proof.
  unfold succeeds. intros H.
  destruct (outcome m1) as [e | []] eqn:H1.
  - rewrite (outcome_bind_fail _ _ e H1) in H. discriminate.
  - rewrite (outcome_bind_ok _ _ tt H1) in H. split; [reflexivity | exact H].
Qed.

Lemma forEach_succeeds_inv {A} (f : A -> M unit) (l : list A) :
  succeeds (forEach f l) -> Forall (fun x => succeeds (f x)) l.
Proof.
  induction l as [| x r IH]; simpl; intros H; [constructor |].
  apply succeeds_bind_inv in H. destruct H as (Hx & Hr).
  constructor; [exact Hx | exact (IH Hr)].
Qed.

Lemma succeeds_when_throw (c : bool) (msg : string) :
  succeeds (when c (throw msg)) -> c = false.
Proof. destruct c; [discriminate | reflexivity]. Qed.

Lemma checkAll_succeeds_inv E m s :
  succeeds (checkAll E m s) ->
  succeeds (checkForEntityErrors E m s)
  /\ succeeds (checkForRelationshipErrors E m s)
  /\ succeeds (checkForEnumErrors E m)
  /\ succeeds (checkDeploymentsErrors E m)
  /\ succeeds (checkForOptionErrors E m s).
Proof.
  unfold checkAll. intros H.
  apply succeeds_bind_inv in H. destruct H as (H1 & H).
  apply succeeds_bind_inv in H. destruct H as (H2 & H).
  apply succeeds_bind_inv in H. destruct H as (H3 & H).
  apply succeeds_bind_inv in H. destruct H as (H4 & H5).
  repeat split; assumption.
Qed.

(** X17: a model that passes the validation has no dangling relationship.
    Without blueprints, when [checkForErrors()] returns, every relationship
    of the model has an accepted shape and a declared [from] endpoint, and
    its [to] endpoint is declared or is a user-management entity while user
    management is not skipped. *)
Theorem validated_relationships_are_resolved (E : Collaborators) (m : JDLObject.t)
    (s : Settings) (r : JDLRelationship.t) :
  blueprintsUsed s = false ->
  succeeds (validation E m s) ->
  In r (JDLObject.relationships m) ->
  RelationshipValidator E r (skippedUserManagementValue E m s) = None
  /\ doesEntityExist m (JDLRelationship.from r) = true
  /\ (doesEntityExist m (JDLRelationship.to r) = true
      \/ (isUserManagementEntity (JDLRelationship.to r) = true
          /\ truthy (skippedUserManagementValue E m s) = false)).
Proof.
  intros Hbp Hok Hr. rewrite (validation_phases _ _ _ Hbp) in Hok.
  apply checkAll_succeeds_inv in Hok. destruct Hok as (_ & Hrel & _).
  rewrite checkForRelationshipErrors_some in Hrel
    by (intros Hnil; rewrite Hnil in Hr; exact Hr).
  apply forEach_succeeds_inv in Hrel. rewrite Forall_forall in Hrel.
  specialize (Hrel r Hr). unfold checkRelationship in Hrel.
  apply succeeds_bind_inv in Hrel. destruct Hrel as (Hshape & Habsent).
  apply succeeds_validate in Hshape. split; [exact Hshape |].
  unfold checkForAbsentEntities in Habsent. apply succeeds_when_throw in Habsent.
  rewrite absentEntities_cases in Habsent. unfold toReported in Habsent.
  destruct (doesEntityExist m (JDLRelationship.from r)); [| discriminate].
  split; [reflexivity |].
  destruct (doesEntityExist m (JDLRelationship.to r)); [left; reflexivity |].
  destruct (isUserManagementEntity (JDLRelationship.to r)); [| discriminate].
  destruct (truthy (skippedUserManagementValue E m s)); [discriminate |].
  right. split; reflexivity.
Qed.

Lemma validated_relationships_are_resolved_witness :
  let r := Sample.oneToOne "Source" "User" in
  blueprintsUsed Sample.sqlMonolith = false
  /\ succeeds (validation Sample.collaborators Sample.sourceToUser Sample.sqlMonolith)
  /\ In r (JDLObject.relationships Sample.sourceToUser)
  /\ doesEntityExist Sample.sourceToUser "Source" = true
  /\ (doesEntityExist Sample.sourceToUser "User" = true
      \/ (isUserManagementEntity "User" = true
          /\ truthy (skippedUserManagementValue Sample.collaborators Sample.sourceToUser
                       Sample.sqlMonolith) = false)).
Proof.
  intros r.
  assert (Hin : In r (JDLObject.relationships Sample.sourceToUser)) by (left; reflexivity).
  exact (conj eq_refl (conj eq_refl (conj Hin
           (proj2 (validated_relationships_are_resolved Sample.collaborators
                     Sample.sourceToUser Sample.sqlMonolith r eq_refl eq_refl Hin))))).
Defined.

Lemma checkField_succeeds_inv E m s entityName filtering k f :
  succeeds (checkField E m s entityName filtering (k, f)) ->
  FieldValidator E f = None
  /\ filtering && isReservedPaginationWords E (JDLField.name f) = false
  /\ hasEnum m (JDLField.type f) || typeUniverseAccepts E s (JDLField.type f) = true
  /\ Forall (fun v => ValidationValidator E v = None
                      /\ hasValidation E (JDLField.type f) (JDLValidation.name v)
                           (hasEnum m (JDLField.type f)) = true)
       (JDLField.validations f).
Proof.
  intros H.
  assert (Hshape : FieldValidator E f = None).
  { unfold checkField in H. apply succeeds_bind_inv in H. destruct H as (H & _).
    apply succeeds_validate. exact H. }
  rewrite (checkField_shape_ok _ _ _ _ _ _ _ Hshape) in H.
  apply succeeds_bind_inv in H. destruct H as (_ & H).
  apply succeeds_bind_inv in H. destruct H as (Hpag & H).
  apply succeeds_bind_inv in H. destruct H as (Hty & Hvals).
  apply succeeds_when_throw in Hpag. apply succeeds_when_throw in Hty.
  rewrite <- negb_orb, negb_false_iff, getTypeCheckingFunction_spec in Hty.
  repeat split; try assumption.
  rewrite checkForValidationErrors_validate in Hvals.
  apply succeeds_validate, firstRejection_None in Hvals.
  apply Forall_impl with (2 := Hvals). intros v Hv. unfold validationError in Hv.
  destruct (ValidationValidator E v); [discriminate |].
  destruct (hasValidation E (JDLField.type f) (JDLValidation.name v)
              (hasEnum m (JDLField.type f))); [split; reflexivity | discriminate].
Qed.

(** X18: a model that passes the validation has sound entities. Without
    blueprints, when [checkForErrors()] returns, for every entity of the
    model the database type is there and the entity's name is no reserved
    class name, and for every field of the entity: its shape is accepted, its
    name is no pagination word if the database type is SQL, its type is a
    declared enumeration or accepted by the type-checking predicate, and each
    of its validations has an accepted shape and is supported for its type. *)
Theorem validated_entities_are_sound (E : Collaborators) (m : JDLObject.t) (s : Settings)
    (e : JDLEntity.t) :
  blueprintsUsed s = false ->
  succeeds (validation E m s) ->
  In e (JDLObject.entities m) ->
  truthyString (databaseType s) = true
  /\ isReservedClassName E (JDLEntity.name e) = false
  /\ (forall k f,
        In (k, f) (JDLEntity.fields e) ->
        FieldValidator E f = None
        /\ (databaseType s = Some (SQL E) -> isReservedPaginationWords E (JDLField.name f) = false)
        /\ hasEnum m (JDLField.type f) || typeUniverseAccepts E s (JDLField.type f) = true
        /\ Forall (fun v => ValidationValidator E v = None
                            /\ hasValidation E (JDLField.type f) (JDLValidation.name v)
                                 (hasEnum m (JDLField.type f)) = true)
             (JDLField.validations f)).
Proof.
  intros Hbp Hok He. rewrite (validation_phases _ _ _ Hbp) in Hok.
  apply checkAll_succeeds_inv in Hok. destruct Hok as (Hent & _).
  unfold checkForEntityErrors, getEntityQuantity in Hent.
  destruct (JDLObject.entities m) as [| e0 es] eqn:Hes; [contradiction |].
  cbn [length Nat.eqb] in Hent.
  destruct (truthyString (databaseType s)) eqn:Hdb; [| discriminate].
  cbn [negb] in Hent. split; [reflexivity |].
  apply forEach_succeeds_inv in Hent. rewrite Forall_forall in Hent.
  specialize (Hent e He). unfold checkEntity in Hent.
  apply succeeds_bind_inv in Hent. destruct Hent as (Hshape & Hent).
  apply succeeds_bind_inv in Hent. destruct Hent as (_ & Hfields).
  split.
  - apply succeeds_validate in Hshape. unfold EntityValidator in Hshape.
    destruct (isReservedClassName E (JDLEntity.name e)); [discriminate | reflexivity].
  - intros k f Hf. unfold checkForFieldErrors in Hfields.
    apply forEach_succeeds_inv in Hfields. rewrite Forall_forall in Hfields.
    specialize (Hfields (k, f) Hf). apply checkField_succeeds_inv in Hfields.
    destruct Hfields as (H1 & H2 & H3 & H4). repeat split; try assumption.
    intros Hsql. rewrite Hsql, strictEq_same in H2. exact H2.
Qed.

Lemma validated_entities_are_sound_witness :
  let f := JDLField.mk "amount" "Integer" [JDLValidation.mk "min" (Some "0")] in
  let valid := Sample.entity "Valid" [f] in
  let m := JDLObject.mk [valid] [] [] [] [] in
  blueprintsUsed Sample.sqlMonolith = false
  /\ succeeds (validation Sample.collaborators m Sample.sqlMonolith)
  /\ In valid (JDLObject.entities m)
  /\ isReservedClassName Sample.collaborators "Valid" = false
  /\ hasValidation Sample.collaborators "Integer" "min" false = true.
Proof.
  intros f valid m.
  assert (Hin : In valid (JDLObject.entities m)) by (left; reflexivity).
  destruct (validated_entities_are_sound Sample.collaborators m Sample.sqlMonolith valid
              eq_refl eq_refl Hin) as (_ & Hname & Hfields).
  destruct (Hfields "amount" f (or_introl eq_refl)) as (_ & _ & _ & Hvals).
  inversion Hvals as [| v vs (_ & Hmin) _]; subst.
  exact (conj eq_refl (conj eq_refl (conj Hin (conj Hname Hmin)))).
Defined.

(** X19: a model that passes the validation has sound options. Without
    blueprints, when [checkForErrors()] returns, every option of the model is
    accepted by the shape validator of its kind, and with the Cassandra
    database type no option is named Pagination. *)
Theorem validated_options_are_sound (E : Collaborators) (m : JDLObject.t) (s : Settings)
    (o : JDLOption.t) :
  blueprintsUsed s = false ->
  succeeds (validation E m s) ->
  In o (JDLObject.options m) ->
  optionShapeAccepted E o
  /\ (databaseType s = Some (CASSANDRA E) -> JDLOption.name o <> PAGINATION E).
Proof.
  intros Hbp Hok Ho. rewrite (validation_phases _ _ _ Hbp) in Hok.
  apply checkAll_succeeds_inv in Hok. destruct Hok as (_ & _ & _ & _ & Hopt).
  rewrite checkForOptionErrors_validate in Hopt.
  apply succeeds_validate, firstRejection_None in Hopt.
  rewrite Forall_forall in Hopt. specialize (Hopt o Ho).
  unfold optionError in Hopt. unfold optionShapeAccepted.
  destruct (JDLOption.getType o);
    [destruct (UnaryOptionValidator E o) | destruct (BinaryOptionValidator E o)];
    try discriminate;
    (split; [reflexivity |]); intros Hdb Hname;
    rewrite Hdb, strictEq_same, Hname, String.eqb_refl in Hopt; discriminate.
Qed.

Lemma validated_options_are_sound_witness :
  let dto := JDLOption.mk JDLOption.BINARY "dto" (Some "mapstruct") ["A"] [] in
  let m := JDLObject.mk [] [] [] [] [dto] in
  let cassandra := mkSettings None (Some "monolith") (Some "cassandra") None None in
  blueprintsUsed cassandra = false
  /\ succeeds (validation Sample.collaborators m cassandra)
  /\ In dto (JDLObject.options m)
  /\ optionShapeAccepted Sample.collaborators dto
  /\ (databaseType cassandra = Some "cassandra" -> JDLOption.name dto <> "pagination").
Proof.
  intros dto m cassandra.
  assert (Hin : In dto (JDLObject.options m)) by (left; reflexivity).
  exact (conj eq_refl (conj eq_refl (conj Hin
           (validated_options_are_sound Sample.collaborators m cassandra dto
              eq_refl eq_refl Hin)))).
Defined.

Lemma strictEq_true (v : option string) (c : string) : strictEq v c = true -> v = Some c.
Proof.
  destruct v as [x |]; simpl; [| discriminate].
  intros H. apply String.eqb_eq in H. congruence.
Qed.

Lemma fieldSound_passes E m s entityName k f :
  fieldSound E m s f ->
  succeeds (checkField E m s entityName (strictEq (databaseType s) (SQL E)) (k, f)).
Proof.
  intros (Hshape & Hpag & Hty & Hvals). unfold succeeds.
  rewrite checkField_continues; try assumption.
  2: { rewrite getTypeCheckingFunction_spec. exact Hty. }
  rewrite checkForValidationErrors_validate.
  apply succeeds_validate, firstRejection_None.
  apply Forall_impl with (2 := Hvals). intros v (Hv & Hh).
  unfold validationError. rewrite Hv, Hh. reflexivity.
Qed.

Lemma entitySound_passes E m s e :
  entitySound E m s e -> succeeds (checkEntity E m s e).
Proof.
  intros (Hname & Hfields). unfold checkEntity, EntityValidator.
  rewrite Hname, validate_None, bind_ret_l.
  apply succeeds_bind; [apply succeeds_when_warn |].
  unfold checkForFieldErrors. apply forEach_succeeds.
  apply Forall_impl with (2 := Hfields). intros [k f] Hf. apply fieldSound_passes. exact Hf.
Qed.

Lemma relationshipSound_passes E m s r :
  relationshipSound E m s r ->
  succeeds (checkRelationship E m (skippedUserManagementValue E m s) r).
Proof.
  intros (Hshape & Hfrom & Hto). unfold checkRelationship, checkForAbsentEntities.
  rewrite Hshape, validate_None, bind_ret_l, absent_none; [reflexivity | exact Hfrom |].
  unfold toReported. destruct Hto as [-> | (-> & ->)]; [reflexivity |].
  apply andb_false_r.
Qed.

Lemma optionSound_passes E s o : optionSound E s o -> optionError E s o = None.
Proof.
  intros (Hshape & Hpag). unfold optionError. unfold optionShapeAccepted in Hshape.
  replace (match JDLOption.getType o with
           | JDLOption.UNARY => UnaryOptionValidator E o
           | JDLOption.BINARY => BinaryOptionValidator E o
           end) with (@None string) by (destruct (JDLOption.getType o); congruence).
  destruct (strictEq (databaseType s) (CASSANDRA E)) eqn:Hdb; [| reflexivity].
  apply strictEq_true in Hdb. specialize (Hpag Hdb).
  apply String.eqb_neq in Hpag. rewrite Hpag. reflexivity.
Qed.

(** X20: a sound model passes. Without blueprints, [checkForErrors()]
    returns when the database type is there (or the model has no entity), no
    entity has a reserved class name, every field has an accepted shape, a
    name that is no pagination word under SQL, an accepted type and accepted,
    supported validations, every relationship has an accepted shape, a
    declared [from] and a [to] that is declared or the implicit user entity
    while user management is not skipped, every enumeration, deployment and
    option has an accepted shape, and no option is named Pagination under
    Cassandra. *)
Theorem sound_model_passes (E : Collaborators) (m : JDLObject.t) (s : Settings) :
  blueprintsUsed s = false ->
  JDLObject.entities m = [] \/ truthyString (databaseType s) = true ->
  Forall (entitySound E m s) (JDLObject.entities m) ->
  Forall (relationshipSound E m s) (JDLObject.relationships m) ->
  Forall (fun e => EnumValidator E e = None) (JDLObject.enums m) ->
  Forall (fun d => DeploymentValidator E d = None) (JDLObject.deployments m) ->
  Forall (optionSound E s) (JDLObject.options m) ->
  succeeds (validation E m s).
Proof.
  intros Hbp Hdb Hents Hrels Henums Hdeps Hopts.
  rewrite (validation_phases _ _ _ Hbp). unfold checkAll.
  repeat apply succeeds_bind.
  - unfold checkForEntityErrors, getEntityQuantity.
    destruct (JDLObject.entities m) as [| e es] eqn:Hes; [reflexivity |].
    destruct Hdb as [Hdb | Hdb]; [discriminate |].
    cbn [length Nat.eqb]. rewrite Hdb. cbn [negb].
    apply forEach_succeeds. apply Forall_impl with (2 := Hents).
    intros e'. apply entitySound_passes.
  - unfold checkForRelationshipErrors.
    destruct (getRelationshipQuantity m =? 0)%nat; [reflexivity |].
    apply forEach_succeeds. apply Forall_impl with (2 := Hrels).
    intros r. apply relationshipSound_passes.
  - rewrite checkForEnumErrors_validate. apply succeeds_validate, firstRejection_None.
    exact Henums.
  - rewrite checkDeploymentsErrors_validate. apply succeeds_validate, firstRejection_None.
    exact Hdeps.
  - rewrite checkForOptionErrors_validate. apply succeeds_validate, firstRejection_None.
    apply Forall_impl with (2 := Hopts). intros o. apply optionSound_passes.
Qed.

Lemma sound_model_passes_witness :
  let amount := JDLField.mk "amount" "Integer" [JDLValidation.mk "min" (Some "0")] in
  let color := JDLField.mk "color" "Color" [JDLValidation.mk "required" None] in
  let source := Sample.entity "Source" [amount; color] in
  let r := Sample.oneToOne "Source" "User" in
  let dto := JDLOption.mk JDLOption.BINARY "dto" (Some "mapstruct") ["Source"] [] in
  let m := JDLObject.mk [source] [r] [JDLEnum.mk "Color" ["RED"]]
             [JDLDeployment.mk "docker-compose" []] [dto] in
  blueprintsUsed Sample.sqlMonolith = false
  /\ Forall (entitySound Sample.collaborators m Sample.sqlMonolith) (JDLObject.entities m)
  /\ Forall (relationshipSound Sample.collaborators m Sample.sqlMonolith)
       (JDLObject.relationships m)
  /\ Forall (optionSound Sample.collaborators Sample.sqlMonolith) (JDLObject.options m)
  /\ succeeds (validation Sample.collaborators m Sample.sqlMonolith).
Proof.
  intros amount color source r dto m.
  assert (He : Forall (entitySound Sample.collaborators m Sample.sqlMonolith)
                 (JDLObject.entities m)).
  { repeat constructor. }
  assert (Hr : Forall (relationshipSound Sample.collaborators m Sample.sqlMonolith)
                 (JDLObject.relationships m)).
  { constructor; [| constructor]. split; [reflexivity | split; [reflexivity |]].
    right. split; reflexivity. }
  assert (Ho : Forall (optionSound Sample.collaborators Sample.sqlMonolith)
                 (JDLObject.options m)).
  { constructor; [| constructor]. split; [reflexivity | discriminate]. }
  refine (conj eq_refl (conj He (conj Hr (conj Ho
            (sound_model_passes Sample.collaborators m Sample.sqlMonolith eq_refl
               (or_intror eq_refl) He Hr _ _ Ho))))); repeat constructor.
Defined.
